(** * Payment notification opt-out management: the preference service

    A shallow embedding of [backend-app.ts]: the three tables created by
    [ensureDbSchema], the PostgreSQL statements the services send, the
    services [getUserNotificationPreferences],
    [updateUserNotificationPreference] and [shouldSendNotification], and the
    controllers with what Express answers when one of them passes an
    error to [next].

    The asynchronous functions of the source are computations in a small
    state-and-exception monad [Promise] over a [World]: the committed
    database, the transaction block of the client in use, and the
    environment the code cannot control (which storage round trips fail,
    what [uuidv4()] returns, what [NOW()] reads).

    What the model takes from PostgreSQL is what the statements of the
    source rely on: primary keys, the foreign key of
    [notification_preferences], [ON CONFLICT ... DO UPDATE], and
    transaction blocks whose writes are published by [COMMIT] only. Calls
    run one after the other, each on a client that starts outside any
    block. The identifier of a user reaches the storage as text, is read
    there with the input function of the [UUID] type, and is stored and
    compared as the value it denotes. *)

From Stdlib Require Import ZArith NArith Lia Ascii.
From stdpp Require Import gmap strings list fin_maps.

Open Scope string_scope.
Open Scope list_scope.

(** ** Models & Types *)

(** [enum PaymentNotificationType], a string enum. *)
Inductive PaymentNotificationType : Type :=
  | PaymentSuccess
  | PaymentFailure
  | PaymentRefund.

#[global] Instance PaymentNotificationType_eq_dec : EqDecision PaymentNotificationType.
Proof. solve_decision. Defined.

(** The string each member of the enum stands for at run time. *)
Definition type_value (t : PaymentNotificationType) : string :=
  match t with
  | PaymentSuccess => "payment_success"
  | PaymentFailure => "payment_failure"
  | PaymentRefund => "payment_refund"
  end.

(** [Object.values(PaymentNotificationType)]: the members in declaration
    order. *)
Definition allTypes : list PaymentNotificationType :=
  [PaymentSuccess; PaymentFailure; PaymentRefund].

(** [interface NotificationPreference]. *)
Record NotificationPreference : Type := {
  type : PaymentNotificationType;
  optedOut : bool;
}.

(** [interface User]. *)
Record User : Type := {
  id : string;
  email : string;
}.

(** A row of [audit_logs] ([interface AuditLogEntry]); the [TEXT] column
    [notification_type] holds a string, [changed_at] a clock reading. *)
Record AuditLogEntry : Type := {
  audit_id : string;
  user_id : string;
  notification_type : string;
  old_opted_out : bool;
  new_opted_out : bool;
  changed_at : N;
  ip_address : option string;
  user_agent : option string;
}.

(** ** Database schema ([ensureDbSchema])

    - [users (id PRIMARY KEY, email)]: a map from id to email;
    - [notification_preferences (user_id REFERENCES users(id),
      notification_type, opted_out, PRIMARY KEY (user_id,
      notification_type))]: a map from the composite key to [opted_out];
    - [audit_logs (id PRIMARY KEY, ...)]: the rows in insertion order. *)
Record Database : Type := {
  users : gmap string string;
  notification_preferences : gmap (string * string) bool;
  audit_logs : list AuditLogEntry;
}.

(** The schema right after [ensureDbSchema] on an empty database. *)
Definition ensureDbSchema : Database :=
  {| users := ∅; notification_preferences := ∅; audit_logs := [] |}.

(** Errors a storage call rejects with. [ForeignKeyViolation] is SQLSTATE
    23503, [UniqueViolation] is 23505, [InvalidTextRepresentation] is 22P02
    (a parameter for a [UUID] column that is not the text of a UUID);
    [ConnectionFailure] stands for every failure of the round trip itself
    (pool exhausted, timeout, connection lost). *)
Inductive PgError : Type :=
  | ConnectionFailure
  | ForeignKeyViolation
  | UniqueViolation
  | InvalidTextRepresentation.

Definition error_code (e : PgError) : option string :=
  match e with
  | ConnectionFailure => None
  | ForeignKeyViolation => Some "23503"
  | UniqueViolation => Some "23505"
  | InvalidTextRepresentation => Some "22P02"
  end.

(** What a route passes to [next]: the error a storage call rejected with,
    or the [TypeError] of reading a member off [undefined] or [null]. *)
Inductive RouteError : Type :=
  | StorageError (e : PgError)
  | TypeError.

(** ** The world the services run in *)
Record World : Type := {
  db : Database;                 (* committed state, what every reader sees *)
  session : option Database;     (* working copy of the open transaction block *)
  faults : list bool;            (* upcoming round trips: [true] = it fails *)
  uuid_source : nat -> string;   (* the values uuidv4() is going to return *)
  uuid_count : nat;              (* how many of them were drawn *)
  clock : N;                     (* what NOW() reads *)
  error_page : RouteError -> string;
                                 (* the page Express renders for an error no
                                    handler took *)
}.

Definition set_db (d : Database) (w : World) : World :=
  {| db := d; session := session w; faults := faults w;
     uuid_source := uuid_source w; uuid_count := uuid_count w; clock := clock w;
     error_page := error_page w |}.

Definition set_session (s : option Database) (w : World) : World :=
  {| db := db w; session := s; faults := faults w;
     uuid_source := uuid_source w; uuid_count := uuid_count w; clock := clock w;
     error_page := error_page w |}.

(** One round trip passes: the next fault flag is consumed, time advances. *)
Definition tick (fs : list bool) (w : World) : World :=
  {| db := db w; session := session w; faults := fs;
     uuid_source := uuid_source w; uuid_count := uuid_count w;
     clock := N.succ (clock w); error_page := error_page w |}.

(** ** Promises: state and exceptions *)
Inductive Outcome (A : Type) : Type :=
  | Return (a : A)
  | Throw (e : PgError).
Arguments Return {A} a.
Arguments Throw {A} e.

Definition Promise (A : Type) : Type := World -> Outcome A * World.

Definition ret {A : Type} (a : A) : Promise A :=
  fun w => (Return a, w).

(** [await m] followed by the rest of the function: a rejection skips it. *)
Definition bind {A B : Type} (m : Promise A) (k : A -> Promise B) : Promise B :=
  fun w =>
    match m w with
    | (Return a, w1) => k a w1
    | (Throw e, w1) => (Throw e, w1)
    end.

Declare Scope promise_scope.
Delimit Scope promise_scope with promise.
Bind Scope promise_scope with Promise.
Notation "x <- m ;; k" := (bind m (fun x => k))
  (at level 100, m at next level, right associativity) : promise_scope.
Notation "'await' m ;; k" := (bind m (fun _ => k))
  (at level 100, m at next level, right associativity) : promise_scope.
Open Scope promise_scope.

(** A step that only changes the world, and one that only reads it. *)
Definition effect (f : World -> World) : Promise unit :=
  fun w => (Return tt, f w).

Definition gets {A : Type} (f : World -> A) : Promise A :=
  fun w => (Return (f w), w).

Definition throw {A : Type} (e : PgError) : Promise A :=
  fun w => (Throw e, w).

(** [try { body } catch (err) { handler err } finally { cleanup }]. The
    cleanup of the source ([client.release()]) does not throw. *)
Definition try_catch_finally {A : Type}
    (body : Promise A) (handler : PgError -> Promise A)
    (cleanup : Promise unit) : Promise A :=
  fun w =>
    let '(r, w1) :=
      match body w with
      | (Return a, w1) => (Return a, w1)
      | (Throw e, w1) => handler e w1
      end in
    (r, (cleanup w1).2).

(** [try { body } finally { cleanup }]. *)
Definition try_finally {A : Type}
    (body : Promise A) (cleanup : Promise unit) : Promise A :=
  try_catch_finally body throw cleanup.

(** ** PostgreSQL, as far as the statements of the source go

    Every call on the pool or on a client is one round trip. A round trip
    that fails rejects with [ConnectionFailure] and has no effect on the
    database. What a transaction block wrote stays in its working copy
    until [COMMIT] publishes it or [ROLLBACK] drops it. *)
Definition round_trip : Promise unit :=
  fun w =>
    match faults w with
    | true :: fs => (Throw ConnectionFailure, tick fs w)
    | false :: fs => (Return tt, tick fs w)
    | [] => (Return tt, tick [] w)
    end.

(** What a statement of the client reads: its transaction's working copy
    inside a block, the committed state outside. *)
Definition current (w : World) : Database :=
  match session w with
  | Some d => d
  | None => db w
  end.

(** Where a statement of the client writes: into the working copy inside a
    block, straight to the committed state outside (autocommit). *)
Definition write (d : Database) (w : World) : World :=
  match session w with
  | Some _ => set_session (Some d) w
  | None => set_db d w
  end.

(** [pool.connect()]: checks a client out; it starts outside any block. *)
Definition pool_connect : Promise unit :=
  await round_trip;;
  effect (set_session None).

(** [client.release()]. *)
Definition client_release : Promise unit :=
  ret tt.

(** [client.query('BEGIN')]. *)
Definition query_BEGIN : Promise unit :=
  await round_trip;;
  effect (fun w => set_session (Some (current w)) w).

(** [client.query('COMMIT')]. *)
Definition query_COMMIT : Promise unit :=
  await round_trip;;
  effect (fun w => set_session None (set_db (current w) w)).

(** [client.query('ROLLBACK')]. *)
Definition query_ROLLBACK : Promise unit :=
  await round_trip;;
  effect (set_session None).

(** *** Values of type [UUID]

    The columns [users.id], [notification_preferences.user_id],
    [audit_logs.id] and [audit_logs.user_id] are of type [UUID]. The server
    reads the text of a parameter for such a column with its input function
    and compares and stores the value it denotes, not the text: upper-case
    digits, surrounding braces and other hyphenation denote the same value.
    A stored value is carried here as the text the server prints for it,
    thirty-two lower-case digits in groups of 8-4-4-4-12. *)

(** A hexadecimal digit, in lower case. *)
Definition hex_digit (c : ascii) : option ascii :=
  let n := nat_of_ascii c in
  if (48 <=? n)%nat && (n <=? 57)%nat then Some c
  else if (97 <=? n)%nat && (n <=? 102)%nat then Some c
  else if (65 <=? n)%nat && (n <=? 70)%nat then Some (ascii_of_nat (n + 32))
  else None.

(** The loop of the input function over the sixteen bytes: two digits each,
    and a hyphen is skipped after a byte of odd index other than the last.
    It gives the digits read and the text left. *)
Fixpoint read_bytes (remaining i : nat) (src : string) : option (string * string) :=
  match remaining with
  | O => Some (EmptyString, src)
  | S remaining' =>
      match src with
      | String a (String b rest) =>
          match hex_digit a, hex_digit b with
          | Some a', Some b' =>
              let rest' :=
                match rest with
                | String "-" after => if Nat.odd i && (i <? 15)%nat then after else rest
                | _ => rest
                end in
              match read_bytes remaining' (S i) rest' with
              | Some (digits, remainder) => Some (String a' (String b' digits), remainder)
              | None => None
              end
          | _, _ => None
          end
      | _ => None
      end
  end.

(** The digits of the value a text denotes, if it is the text of a UUID:
    an opening brace is allowed and then needs its closing one, and nothing
    may follow. *)
Definition string_to_uuid (source : string) : option string :=
  match source with
  | String "{" src =>
      match read_bytes 16 0 src with
      | Some (digits, String "}" EmptyString) => Some digits
      | _ => None
      end
  | _ =>
      match read_bytes 16 0 source with
      | Some (digits, EmptyString) => Some digits
      | _ => None
      end
  end.

(** The text the server prints for a value. *)
Definition uuid_out (digits : string) : string :=
  String.substring 0 8 digits +:+ "-" +:+ String.substring 8 4 digits +:+ "-"
  +:+ String.substring 12 4 digits +:+ "-" +:+ String.substring 16 4 digits +:+ "-"
  +:+ String.substring 20 12 digits.

(** The value a text denotes. *)
Definition uuid_in (text : string) : option string :=
  uuid_out <$> string_to_uuid text.

(** A parameter for a [UUID] column: the statement is rejected with 22P02
    when the text is not that of a UUID. *)
Definition uuid_param (text : string) : Promise string :=
  match uuid_in text with
  | Some u => ret u
  | None => throw InvalidTextRepresentation
  end.

(** [SELECT notification_type, opted_out FROM notification_preferences
    WHERE user_id = $1]; [rows_of_user] takes the value [$1] denotes. *)
Definition rows_of_user (userId : string) (d : Database) : list (string * bool) :=
  omap (fun kv : string * string * bool =>
          if decide (kv.1.1 = userId) then Some (kv.1.2, kv.2) else None)
       (map_to_list (notification_preferences d)).

Definition query_SELECT_preferences (userId : string) : Promise (list (string * bool)) :=
  await round_trip;;
  u <- uuid_param userId;;
  d <- gets current;;
  ret (rows_of_user u d).

(** [SELECT opted_out FROM notification_preferences WHERE user_id = $1 AND
    notification_type = $2]: at most one row, by the primary key;
    [rows_of_key] takes the value [$1] denotes. *)
Definition rows_of_key (userId ty : string) (d : Database) : list bool :=
  match notification_preferences d !! (userId, ty) with
  | Some b => [b]
  | None => []
  end.

Definition query_SELECT_opted_out (userId ty : string) : Promise (list bool) :=
  await round_trip;;
  u <- uuid_param userId;;
  d <- gets current;;
  ret (rows_of_key u ty d).

(** [INSERT INTO notification_preferences ... ON CONFLICT (user_id,
    notification_type) DO UPDATE SET opted_out = EXCLUDED.opted_out]: an
    existing row is updated in place; a new row needs its user in [users]. *)
Definition upsert (userId ty : string) (optedOut : bool) (d : Database) : Database :=
  {| users := users d;
     notification_preferences := <[(userId, ty) := optedOut]> (notification_preferences d);
     audit_logs := audit_logs d |}.

Definition query_UPSERT_preference (userId ty : string) (optedOut : bool) : Promise unit :=
  await round_trip;;
  u <- uuid_param userId;;
  d <- gets current;;
  match notification_preferences d !! (u, ty), users d !! u with
  | None, None => throw ForeignKeyViolation
  | _, _ => effect (write (upsert u ty optedOut d))
  end.

(** [INSERT INTO audit_logs (...) VALUES ($1, ..., NOW(), $6, $7)]: [id] is
    the primary key. The identifier is what [uuidv4()] returned, the text
    the server prints for the value it denotes; the user id is read as any
    parameter for a [UUID] column. *)
Definition append_audit (e : AuditLogEntry) (d : Database) : Database :=
  {| users := users d;
     notification_preferences := notification_preferences d;
     audit_logs := audit_logs d ++ [e] |}.

Definition query_INSERT_audit_log (ident userId ty : string) (old new : bool)
    (ip ua : option string) : Promise unit :=
  await round_trip;;
  u <- uuid_param userId;;
  d <- gets current;;
  now <- gets clock;;
  if decide (ident ∈ audit_id <$> audit_logs d) then throw UniqueViolation
  else
    effect (write (append_audit
                     {| audit_id := ident; user_id := u; notification_type := ty;
                        old_opted_out := old; new_opted_out := new;
                        changed_at := now; ip_address := ip; user_agent := ua |}
                     d)).

(** [uuidv4()]: the next identifier of the source. *)
Definition draw (w : World) : World :=
  {| db := db w; session := session w; faults := faults w;
     uuid_source := uuid_source w; uuid_count := S (uuid_count w);
     clock := clock w; error_page := error_page w |}.

Definition uuidv4 : Promise string :=
  ident <- gets (fun w => uuid_source w (uuid_count w));;
  await effect draw;;
  ret ident.

(** ** Services *)

(** [const prefMap = {}; for (const row of rows) prefMap[row.notification_type]
    = row.opted_out]: a later row of the same type overwrites an earlier
    one. The map is only read at the three strings of the enum, none of
    which is a property an empty JavaScript object inherits. *)
Definition prefMap_of (rows : list (string * bool)) : gmap string bool :=
  foldl (fun m row => <[row.1 := row.2]> m) ∅ rows.

(** Fetches all notification preferences for a user; a missing type is
    filled in with the default [false] ([prefMap[type] ?? false]). *)
Definition getUserNotificationPreferences (userId : string)
    : Promise (list NotificationPreference) :=
  await pool_connect;;
  try_finally
    (rows <- query_SELECT_preferences userId;;
     let prefMap := prefMap_of rows in
     ret ((fun t => {| type := t;
                        optedOut := default false (prefMap !! type_value t) |})
             <$> allTypes))
    client_release.

(** Updates a user's notification preference and logs the change inside one
    transaction block; returns the updated preferences. *)
Definition updateUserNotificationPreference
    (userId : string) (ty : PaymentNotificationType) (optedOut : bool)
    (ipAddress userAgent : option string)
    : Promise (list NotificationPreference) :=
  await pool_connect;;
  try_catch_finally
    (await query_BEGIN;;
     oldRows <- query_SELECT_opted_out userId (type_value ty);;
     let oldOptedOut := match oldRows with r :: _ => r | [] => false end in
     await (if negb (eqb oldOptedOut optedOut) then
              await query_UPSERT_preference userId (type_value ty) optedOut;;
              ident <- uuidv4;;
              query_INSERT_audit_log ident userId (type_value ty)
                oldOptedOut optedOut ipAddress userAgent
            else ret tt);;
     await query_COMMIT;;
     getUserNotificationPreferences userId)
    (fun err => await query_ROLLBACK;; throw err)
    client_release.

(** Checks whether a notification of the type is to be sent to the user. *)
Definition shouldSendNotification (userId : string) (ty : PaymentNotificationType)
    : Promise bool :=
  await pool_connect;;
  try_finally
    (rows <- query_SELECT_opted_out userId (type_value ty);;
     match rows with
     | [] => ret true
     | r :: _ => ret (negb r)
     end)
    client_release.

(** ** Controllers *)

(** A JavaScript value as [bodyParser.json()] can produce it, plus
    [undefined], for a member that is not there or a body that was not
    parsed. *)
#[local] Unset Elimination Schemes.
Inductive JsValue : Type :=
  | JsUndefined
  | JsNull
  | JsBoolean (b : bool)
  | JsNumber (n : Z)
  | JsString (s : string)
  | JsArray (items : list JsValue)
  | JsObject (members : list (string * JsValue)).
#[local] Set Elimination Schemes.

(** [o[key]] on a parsed body: the last member of that name wins, and
    anything that is not an object with that member gives [undefined]. *)
Fixpoint member_of (key : string) (members : list (string * JsValue)) : JsValue :=
  match members with
  | [] => JsUndefined
  | (k, v) :: rest =>
      match member_of key rest with
      | JsUndefined => if decide (k = key) then v else JsUndefined
      | later => later
      end
  end.

Definition js_get (o : JsValue) (key : string) : JsValue :=
  match o with
  | JsObject members => member_of key members
  | _ => JsUndefined
  end.

(** [!v]. *)
Definition js_not (v : JsValue) : bool :=
  match v with
  | JsUndefined | JsNull => true
  | JsBoolean b => negb b
  | JsNumber n => (n =? 0)%Z
  | JsString s => bool_decide (s = "")
  | JsArray _ | JsObject _ => false
  end.

(** [Object.values(PaymentNotificationType).includes(v)]. *)
Definition js_includes_type (v : JsValue) : bool :=
  match v with
  | JsString s => bool_decide (s ∈ type_value <$> allTypes)
  | _ => false
  end.

(** [typeof v !== 'boolean']. *)
Definition js_not_boolean (v : JsValue) : bool :=
  match v with
  | JsBoolean _ => false
  | _ => true
  end.

(** The member of the enum a validated string is. *)
Definition type_of_value (s : string) : option PaymentNotificationType :=
  List.find (fun t => bool_decide (type_value t = s)) allTypes.

(** What the controller reads of the request: the user the authentication
    middleware attached, the parsed body, [req.ip] and the user-agent
    header. *)
Record Request : Type := {
  user : User;
  body : JsValue;
  ip : option string;
  header_user_agent : option string;
}.

Inductive ResponseBody : Type :=
  | Message (message : string)
  | Updated (success : bool) (preferences : list NotificationPreference)
  | ErrorPage (html : string).

Record Response : Type := {
  status : nat;
  json : ResponseBody;
}.

(** The error handling middleware of the application. It is registered
    with [app.use] before the router, so it receives the errors of the
    middleware registered before it (the body parser), and never one a
    route passes to [next]. *)
Definition errorMiddleware (err : PgError) : Response :=
  if decide (error_code err = Some "23505")
  then {| status := 409; json := Message "Conflict: Duplicate entry." |}
  else {| status := 500; json := Message "Internal server error." |}.

(** Where [next(err)] of a route ends: no error handling middleware follows
    the router, so Express answers with its own handler, status 500 and a
    page. The errors of the routes carry no status of their own. *)
Definition expressErrorHandler (err : RouteError) (w : World) : Response :=
  {| status := 500; json := ErrorPage (error_page w err) |}.

(** [PUT /notification-preferences]. Reading [type] and [optedOut] off a
    body that is [undefined] or [null] throws, and the error goes to
    [next]. Past the validation, [type] is the string of a member of the
    enum and [optedOut] a boolean; the two fallback branches below are
    never taken. *)
Definition updateNotificationPreferenceHandler (req : Request) (w : World)
    : Response * World :=
  match body req with
  | JsUndefined | JsNull => (expressErrorHandler TypeError w, w)
  | _ =>
      let ty := js_get (body req) "type" in
      let optedOut := js_get (body req) "optedOut" in
      if js_not ty || negb (js_includes_type ty) || js_not_boolean optedOut then
        ({| status := 400;
            json := Message "Malformed input: Invalid notification type or optedOut value." |},
         w)
      else
        match ty, optedOut with
        | JsString s, JsBoolean b =>
            match type_of_value s with
            | Some t =>
                match updateUserNotificationPreference
                        (id (user req)) t b (ip req) (header_user_agent req) w with
                | (Return updatedPreferences, w1) =>
                    ({| status := 200; json := Updated true updatedPreferences |}, w1)
                | (Throw err, w1) => (expressErrorHandler (StorageError err) w1, w1)
                end
            | None => (expressErrorHandler TypeError w, w)
            end
        | _, _ => (expressErrorHandler TypeError w, w)
        end
  end.

(** ** Runs of the write path *)

(** One call of [updateUserNotificationPreference]. *)
Record Call : Type := {
  call_user : string;
  call_type : PaymentNotificationType;
  call_optedOut : bool;
  call_ip : option string;
  call_user_agent : option string;
}.

Definition perform (c : Call) : Promise (list NotificationPreference) :=
  updateUserNotificationPreference
    (call_user c) (call_type c) (call_optedOut c) (call_ip c) (call_user_agent c).

(** The calls one after the other; the outcomes in call order and the world
    after the last. *)
Fixpoint run_calls (cs : list Call) (w : World)
    : list (Outcome (list NotificationPreference)) * World :=
  match cs with
  | [] => ([], w)
  | c :: rest =>
      let '(r, w1) := perform c w in
      let '(rs, w2) := run_calls rest w1 in
      (r :: rs, w2)
  end.

Definition succeeded {A : Type} (r : Outcome A) : bool :=
  match r with
  | Return _ => true
  | Throw _ => false
  end.

(** ** What the stores hold *)

(** The effective value of a key: the stored [opted_out] of the user the
    id denotes, [false] when no row exists (so also when the id denotes no
    user at all). *)
Definition effective (d : Database) (userId : string) (t : PaymentNotificationType) : bool :=
  match uuid_in userId with
  | Some u => default false (notification_preferences d !! (u, type_value t))
  | None => false
  end.

(** The full preference view of a user over a database. *)
Definition view (d : Database) (userId : string) : list NotificationPreference :=
  (fun t => {| type := t; optedOut := effective d userId t |}) <$> allTypes.

(** The audit entries of a key, in insertion order, and the transition an
    entry records. *)
Definition concerns (userId : string) (t : PaymentNotificationType) (e : AuditLogEntry) : bool :=
  bool_decide (uuid_in userId = Some (user_id e))
  && bool_decide (notification_type e = type_value t).

Definition audit_of (userId : string) (t : PaymentNotificationType)
    (l : list AuditLogEntry) : list AuditLogEntry :=
  List.filter (concerns userId t) l.

Definition transition (e : AuditLogEntry) : bool * bool :=
  (old_opted_out e, new_opted_out e).

(** The audit entry the write path builds. *)
Definition audit_entry (ident userId : string) (t : PaymentNotificationType)
    (old new : bool) (at_ : N) (ip ua : option string) : AuditLogEntry :=
  {| audit_id := ident; user_id := userId; notification_type := type_value t;
     old_opted_out := old; new_opted_out := new; changed_at := at_;
     ip_address := ip; user_agent := ua |}.

(** The call is one on the key: its id denotes the user the id of the key
    denotes, and its type is the type of the key. *)
Definition on_key (userId : string) (t : PaymentNotificationType) (c : Call) : bool :=
  bool_decide (is_Some (uuid_in userId) /\ uuid_in (call_user c) = uuid_in userId)
  && bool_decide (call_type c = t).

(** The transitions a sequence of calls that all take effect asks for on
    one key, from the effective value [cur] before the first: a call on the
    key whose value differs from the preceding effective value is a
    transition, any other call is none. *)
Fixpoint requested_transitions (userId : string) (t : PaymentNotificationType)
    (cur : bool) (cs : list Call) : list (bool * bool) :=
  match cs with
  | [] => []
  | c :: rest =>
      if on_key userId t c then
        if eqb cur (call_optedOut c)
        then requested_transitions userId t cur rest
        else (cur, call_optedOut c) :: requested_transitions userId t (call_optedOut c) rest
      else requested_transitions userId t cur rest
  end.

(** The number of calls on the key whose requested value differs from the
    immediately preceding effective value. *)
Fixpoint count_changes (userId : string) (t : PaymentNotificationType)
    (cur : bool) (cs : list Call) : nat :=
  match cs with
  | [] => 0
  | c :: rest =>
      if on_key userId t c then
        if eqb cur (call_optedOut c)
        then count_changes userId t cur rest
        else S (count_changes userId t (call_optedOut c) rest)
      else count_changes userId t cur rest
  end.

(** The value the most recent call on the key asked for, [cur] if none did. *)
Fixpoint last_requested (userId : string) (t : PaymentNotificationType)
    (cur : bool) (cs : list Call) : bool :=
  match cs with
  | [] => cur
  | c :: rest =>
      if on_key userId t c
      then last_requested userId t (call_optedOut c) rest
      else last_requested userId t cur rest
  end.

(** The effective value of the key after each call of the sequence, whether
    the call returned or threw, and the changes in a sequence of values
    that starts from [cur]. *)
Fixpoint effective_trace (userId : string) (t : PaymentNotificationType)
    (cs : list Call) (w : World) : list bool :=
  match cs with
  | [] => []
  | c :: rest =>
      let w1 := (perform c w).2 in
      effective (db w1) userId t :: effective_trace userId t rest w1
  end.

Fixpoint changes (cur : bool) (values : list bool) : list (bool * bool) :=
  match values with
  | [] => []
  | v :: rest =>
      if eqb cur v then changes cur rest else (cur, v) :: changes v rest
  end.

(** Foreign key [notification_preferences.user_id REFERENCES users(id)] and
    primary key [audit_logs.id]. *)
Definition fk_consistent (d : Database) : Prop :=
  forall userId ty, is_Some (notification_preferences d !! (userId, ty)) ->
                    is_Some (users d !! userId).

Definition audit_ids (d : Database) : list string :=
  audit_id <$> audit_logs d.

(** Identifiers ordered by generation: an entry inserted later has the
    greater identifier, in the order of their text (which, for identifiers
    in the canonical lower-case form, is the order of the [UUID] type). *)
Definition generation_ordered (l : list AuditLogEntry) : Prop :=
  forall (i j : nat) (ei ej : AuditLogEntry),
    l !! i = Some ei -> l !! j = Some ej -> (i < j)%nat ->
    String.ltb (audit_id ei) (audit_id ej) = true.

(** No round trip is going to fail. *)
Definition reliable (w : World) : Prop :=
  Forall (fun b => b = false) (faults w).

(** A new row can be inserted for the key, or an old one updated: the id
    denotes a user, who has a row for the type or a row in [users]. *)
Definition insertable (userId : string) (t : PaymentNotificationType) (d : Database) : Prop :=
  exists u, uuid_in userId = Some u /\
    (is_Some (notification_preferences d !! (u, type_value t)) \/
     is_Some (users d !! u)).

(** The identifier [uuidv4()] returns next is not taken. *)
Definition fresh_id (w : World) : Prop :=
  uuid_source w (uuid_count w) ∉ audit_ids (db w).

(** The committed state after an effective change: the row of the key holds
    the new value and one audit entry, recording the transition, is
    appended. *)
Definition committed_change (userId : string) (t : PaymentNotificationType)
    (optedOut : bool) (ip ua : option string) (at_ : N) (w : World) : Database :=
  match uuid_in userId with
  | Some u =>
      append_audit
        (audit_entry (uuid_source w (uuid_count w)) u t
           (effective (db w) userId t) optedOut at_ ip ua)
        (upsert u (type_value t) optedOut (db w))
  | None => db w
  end.

(** ** Postconditions of promises

    [ensures m w Q]: run from [w], the promise [m] settles with an outcome
    and a world that satisfy [Q]. Every promise of the model settles, so
    this is a total-correctness statement. *)
Definition ensures {A : Type} (m : Promise A) (w : World)
    (Q : Outcome A -> World -> Prop) : Prop :=
  Q (m w).1 (m w).2.

(** ** Example data *)

(** A small world to run the services in: one user, nothing stored, no
    fault pending. *)
Definition alice : string := "3f2b8c1e-58cc-4372-a567-0e02b2c3d479".
Definition mallory : string := "9a1d0c77-2b4e-4d0a-8f3e-5c6b7a8d9e0f".

Definition example_uuids (n : nat) : string :=
  match n with
  | 0%nat => "f47ac10b-58cc-4372-a567-0e02b2c3d479"
  | 1%nat => "0c9e4d2a-7b1f-4e6a-9c3d-2f8b5a6e7d10"
  | 2%nat => "7d444840-9dc0-41d1-b245-5ffffd3c1f2a"
  | 3%nat => "b1946ac9-2d3e-4f5a-8b7c-9d0e1f2a3b4c"
  | _ => "5e8d1c3a-6f2b-4a9d-b0c7-3e1f4d2a8b65"
  end.

Definition example_world : World :=
  {| db := {| users := {[ alice := "alice@example.com" ]};
              notification_preferences := ∅;
              audit_logs := [] |};
     session := None;
     faults := [];
     uuid_source := example_uuids;
     uuid_count := 0;
     clock := 0;
     error_page := fun _ => "<pre>Internal Server Error</pre>" |}.

(** A write request of [alice] with the given members in its body. *)
Definition example_request (type_member optedOut_member : JsValue) : Request :=
  {| user := {| id := alice; email := "alice@example.com" |};
     body := JsObject [("type", type_member); ("optedOut", optedOut_member)];
     ip := Some "203.0.113.7";
     header_user_agent := Some "curl/8.5.0" |}.

(** Scenario B, C, D of the specification, then a change of another type. *)
Definition example_calls : list Call :=
  [ {| call_user := alice; call_type := PaymentSuccess; call_optedOut := true;
       call_ip := Some "203.0.113.7"; call_user_agent := Some "curl/8.5.0" |};
    {| call_user := alice; call_type := PaymentSuccess; call_optedOut := true;
       call_ip := Some "203.0.113.7"; call_user_agent := Some "curl/8.5.0" |};
    {| call_user := alice; call_type := PaymentSuccess; call_optedOut := false;
       call_ip := None; call_user_agent := None |};
    {| call_user := alice; call_type := PaymentRefund; call_optedOut := true;
       call_ip := None; call_user_agent := None |} ].

(** The write path without origin metadata. *)
Definition set_preference (userId : string) (t : PaymentNotificationType) (v : bool)
    : Promise (list NotificationPreference) :=
  updateUserNotificationPreference userId t v None None.

(** ** Reading the audit log as a history

    [replay cur ts] follows the transitions [ts] from the value [cur]: each
    must start at the value reached so far and change it. It gives the
    value the history ends at, or nothing when the history is broken. *)
Fixpoint replay (cur : bool) (ts : list (bool * bool)) : option bool :=
  match ts with
  | [] => Some cur
  | (old, new) :: rest =>
      if eqb old cur && negb (eqb old new) then replay new rest else None
  end.

(** The audit log explains the preference table: for every key, the
    entries of the key replay from the default [false] to the effective
    value. *)
Definition audit_explains (d : Database) : Prop :=
  forall (userId : string) (t : PaymentNotificationType),
    replay false (transition <$> audit_of userId t (audit_logs d))
    = Some (effective d userId t).

(** ** Middleware and routes

    What Express hands to the middleware of a route. A header value is the
    text Node decoded from the bytes of the request, one character per
    byte; [req_body] is what [bodyParser.json()] parsed. *)
Record HttpRequest : Type := {
  req_authorization : option string;   (* req.headers['authorization'] *)
  req_user_agent : option string;      (* req.headers['user-agent'] *)
  req_ip : option string;              (* req.ip *)
  req_body : JsValue;                  (* req.body *)
}.

(** What goes back on the wire: the status and the JSON of [res.json]. *)
Record HttpResponse : Type := {
  http_status : nat;
  data : JsValue;
}.

(** The white space [String.prototype.trim] strips, among the characters a
    header value can hold: TAB, LF, VT, FF, CR, SP and NBSP. *)
Definition js_white_space (c : ascii) : bool :=
  bool_decide (nat_of_ascii c ∈ [9; 10; 11; 12; 13; 32; 160]%nat).

Fixpoint trim_start (s : string) : string :=
  match s with
  | EmptyString => EmptyString
  | String c rest => if js_white_space c then trim_start rest else s
  end.

Fixpoint trim_end (s : string) : string :=
  match s with
  | EmptyString => EmptyString
  | String c rest =>
      match trim_end rest with
      | EmptyString => if js_white_space c then EmptyString else String c EmptyString
      | kept => String c kept
      end
  end.

(** [s.trim()]. *)
Definition trim (s : string) : string :=
  trim_end (trim_start s).

(** [s.substring(n)]. *)
Fixpoint substring_from (n : nat) (s : string) : string :=
  match n, s with
  | O, _ => s
  | S n', String _ rest => substring_from n' rest
  | S _, EmptyString => EmptyString
  end.

(** Simple user ID validation: any non-empty string. *)
Definition isValidUserId (userId : string) : bool :=
  (0 <? String.length userId)%nat.

(** The line [logUnauthorizedAttempt] writes with [console.warn]; [null]
    and [undefined] print as such in the template. *)
Definition logUnauthorizedAttempt (req : HttpRequest) (userId : option string)
    (reason : string) : string :=
  "[AUDIT] Unauthorized access attempt: userId=" +:+ default "null" userId
  +:+ ", ip=" +:+ default "undefined" (req_ip req)
  +:+ ", reason=" +:+ reason.

(** How [authMiddleware] ends: with a 401 and a logged line, or with
    [next()] and the user attached to the request. *)
Inductive AuthOutcome : Type :=
  | Unauthorized (response : Response) (warning : string)
  | Authenticated (userId : string).

(** Authentication middleware: expects [Authorization: Bearer <user-id>]. *)
Definition authMiddleware (req : HttpRequest) : AuthOutcome :=
  match req_authorization req with
  | None =>
      Unauthorized
        {| status := 401;
           json := Message "Unauthorized: Missing or malformed Authorization header" |}
        (logUnauthorizedAttempt req None "Missing or malformed Authorization header")
  | Some authHeader =>
      if bool_decide (authHeader = "") || negb (String.prefix "Bearer " authHeader) then
        Unauthorized
          {| status := 401;
             json := Message "Unauthorized: Missing or malformed Authorization header" |}
          (logUnauthorizedAttempt req None "Missing or malformed Authorization header")
      else
        let token := trim (substring_from (String.length "Bearer ") authHeader) in
        if bool_decide (token = "") || negb (isValidUserId token) then
          Unauthorized
            {| status := 401; json := Message "Unauthorized: Invalid user token" |}
            (logUnauthorizedAttempt req (Some token) "Invalid user token")
        else Authenticated token
  end.

(** The request as the controllers read it once [authMiddleware] attached
    [{ id: token }] (an object without [email], which no controller reads);
    [header_user_agent] is [req.headers['user-agent'] || null]. *)
Definition attach_user (userId : string) (req : HttpRequest) : Request :=
  {| user := {| id := userId; email := "" |};
     body := req_body req;
     ip := req_ip req;
     header_user_agent :=
       match req_user_agent req with
       | Some "" => None
       | agent => agent
       end |}.

(** [res.json(...)] of the objects the controllers and middleware send. *)
Definition json_of_preference (p : NotificationPreference) : JsValue :=
  JsObject [("type", JsString (type_value (type p)));
            ("optedOut", JsBoolean (optedOut p))].

Definition json_of_body (b : ResponseBody) : JsValue :=
  match b with
  | Message message => JsObject [("message", JsString message)]
  | Updated success preferences =>
      JsObject [("success", JsBoolean success);
                ("preferences", JsArray (json_of_preference <$> preferences))]
  | ErrorPage html => JsString html
  end.

Definition send (r : Response) : HttpResponse :=
  {| http_status := status r; data := json_of_body (json r) |}.

(** [GET /notification-preferences]: the preferences of the authenticated
    user, or, through [next(err)], the answer of Express to an error. *)
Definition getNotificationPreferencesHandler (req : Request) (w : World)
    : HttpResponse * World :=
  match getUserNotificationPreferences (id (user req)) w with
  | (Return preferences, w1) =>
      ({| http_status := 200;
          data := JsObject [("preferences",
                             JsArray (json_of_preference <$> preferences))] |},
       w1)
  | (Throw err, w1) => (send (expressErrorHandler (StorageError err) w1), w1)
  end.

(** [router.get('/notification-preferences', authMiddleware,
    getNotificationPreferencesHandler)] and the same for [put], mounted
    under [/api]. *)
Definition route_GET (req : HttpRequest) (w : World) : HttpResponse * World :=
  match authMiddleware req with
  | Unauthorized response _ => (send response, w)
  | Authenticated userId => getNotificationPreferencesHandler (attach_user userId req) w
  end.

Definition route_PUT (req : HttpRequest) (w : World) : HttpResponse * World :=
  match authMiddleware req with
  | Unauthorized response _ => (send response, w)
  | Authenticated userId =>
      let '(response, w1) := updateNotificationPreferenceHandler (attach_user userId req) w in
      (send response, w1)
  end.

(** ** The settings page ([frontend-app.tsx])

    The page runs in a browser and talks to the routes above. The model
    takes the request the API client builds to be the request the route
    receives, and the response the route sends to be the response the
    client sees: no request or response is lost on the way, and a token is
    text a header can carry. The enum of notification types is declared a
    second time in the page, with the same members and strings. *)
Module Frontend.

(** What the browser contributes to a request: the token in
    [localStorage] ([getAuthToken]), and the address and user agent the
    server sees. *)
Record Browser : Type := {
  authToken : option string;
  address : option string;
  userAgent : option string;
}.

(** The request interceptor: [Authorization: Bearer <token>] when there is
    a token. *)
Definition interceptor (token : option string) : option string :=
  match token with
  | Some t => if bool_decide (t = "") then None else Some ("Bearer " +:+ t)
  | None => None
  end.

Definition request (b : Browser) (payload : JsValue) : HttpRequest :=
  {| req_authorization := interceptor (authToken b);
     req_user_agent := userAgent b;
     req_ip := address b;
     req_body := payload |}.

(** How a call of the API client settles: with the value it returns, or
    with the error of a response outside 2xx, which it logs and rethrows. *)
Inductive Settled : Type :=
  | Fulfilled (value : JsValue)
  | Rejected (response : HttpResponse).

(** The default [validateStatus] of axios. *)
Definition validateStatus (status : nat) : bool :=
  (200 <=? status)%nat && (status <? 300)%nat.

Definition settle (reply : HttpResponse * World) : Settled * World :=
  if validateStatus (http_status reply.1)
  then (Fulfilled (js_get (data reply.1) "preferences"), reply.2)
  else (Rejected reply.1, reply.2).

(** [api.get('/notification-preferences')], then [response.data.preferences]. *)
Definition fetchNotificationPreferences (b : Browser) (w : World) : Settled * World :=
  settle (route_GET (request b (JsObject [])) w).

(** [api.put('/notification-preferences', { type, optedOut })], then
    [response.data.preferences]. *)
Definition updateNotificationPreference (b : Browser)
    (type : PaymentNotificationType) (optedOut : bool) (w : World) : Settled * World :=
  settle (route_PUT
            (request b (JsObject [("type", JsString (type_value type));
                                  ("optedOut", JsBoolean optedOut)]))
            w).

(** The state of [NotificationSettingsPage]. [saving] is the object the
    page indexes by the string of a type. *)
Record PageState : Type := {
  preferences : JsValue;
  loading : bool;
  saving : gmap string bool;
  error : option string;
  successMsg : option string;
}.

Definition initialState : PageState :=
  {| preferences := JsNull; loading := true; saving := ∅;
     error := None; successMsg := None |}.

(** The effect that fetches the preferences on mount, while the page stays
    mounted. *)
Definition fetched (outcome : Settled) (st : PageState) : PageState :=
  match outcome with
  | Fulfilled prefs =>
      {| preferences := prefs; loading := false; saving := saving st;
         error := None; successMsg := successMsg st |}
  | Rejected _ =>
      {| preferences := preferences st; loading := false; saving := saving st;
         error := Some "Failed to load notification preferences. Please try again later.";
         successMsg := successMsg st |}
  end.

Definition mount (b : Browser) (w : World) : PageState * World :=
  let '(outcome, w1) := fetchNotificationPreferences b w in
  (fetched outcome initialState, w1).

(** [handleToggle], before the request is sent and once it settled. *)
Definition toggleStarted (type : PaymentNotificationType) (st : PageState) : PageState :=
  {| preferences := preferences st; loading := loading st;
     saving := <[type_value type := true]> (saving st);
     error := None; successMsg := None |}.

Definition toggleSettled (type : PaymentNotificationType) (outcome : Settled)
    (st : PageState) : PageState :=
  match outcome with
  | Fulfilled updated =>
      {| preferences := updated; loading := loading st;
         saving := <[type_value type := false]> (saving st);
         error := error st;
         successMsg := Some "Preferences updated successfully." |}
  | Rejected _ =>
      {| preferences := preferences st; loading := loading st;
         saving := <[type_value type := false]> (saving st);
         error := Some "Could not update preference. Please check your connection and try again.";
         successMsg := successMsg st |}
  end.

Definition handleToggle (b : Browser) (type : PaymentNotificationType) (optedOut : bool)
    (st : PageState) (w : World) : PageState * World :=
  let '(outcome, w1) := updateNotificationPreference b type optedOut w in
  (toggleSettled type outcome (toggleStarted type st), w1).

(** [AuthProvider] after its effect ran: a user id exactly when there is a
    token, and [isAuthenticated: !!userId]. *)
Definition userId (b : Browser) : option string :=
  match authToken b with
  | Some t => if bool_decide (t = "") then None else Some "user-123"
  | None => None
  end.

Definition isAuthenticated (b : Browser) : bool :=
  match userId b with
  | Some u => negb (bool_decide (u = ""))
  | None => false
  end.

(** What the page renders. *)
Record OptOutToggleProps : Type := {
  id : string;
  checked : JsValue;
  disabled : bool;
  label : string;
}.

Inductive Rendered : Type :=
  | LoginNotice
  | Settings (loadingLine : bool) (errorLine successLine : option string)
      (form : option (list OptOutToggleProps)).

Definition notificationTypeLabels (type : PaymentNotificationType) : string :=
  match type with
  | PaymentSuccess => "Payment Success"
  | PaymentFailure => "Payment Failure"
  | PaymentRefund => "Payment Refund"
  end.

Definition double_quote : string :=
  String (ascii_of_nat 34) EmptyString.

(** [preferences.find((p) => p.type === type)] on the items of an array;
    [None] when reading [p.type] throws, on an item that is [null]. *)
Fixpoint find_type (items : list JsValue) (type : string) : option (option JsValue) :=
  match items with
  | [] => Some None
  | p :: rest =>
      match p with
      | JsUndefined | JsNull => None
      | _ =>
          match js_get p "type" with
          | JsString s => if bool_decide (s = type) then Some (Some p) else find_type rest type
          | _ => find_type rest type
          end
      end
  end.

(** One [OptOutToggle] per known type, in the order of the enum; [None]
    when rendering throws ([preferences] is not an array, or holds a
    [null]). *)
Definition toggle (st : PageState) (items : list JsValue)
    (type : PaymentNotificationType) : option OptOutToggleProps :=
  match find_type items (type_value type) with
  | None => None
  | Some pref =>
      Some {| id := "toggle-" +:+ type_value type;
              checked := match pref with
                         | Some p => if js_not p then JsBoolean false else js_get p "optedOut"
                         | None => JsBoolean false
                         end;
              disabled := default false (saving st !! type_value type);
              label := "Opt-out of " +:+ double_quote +:+ notificationTypeLabels type
                       +:+ double_quote +:+ " notifications" |}
  end.

Definition toggles (st : PageState) : option (list OptOutToggleProps) :=
  match preferences st with
  | JsArray items => mapM (toggle st items) allTypes
  | _ => None
  end.

Definition shown (line : option string) : option string :=
  match line with
  | Some "" => None
  | _ => line
  end.

(** The render of [NotificationSettingsPage]; [None] when it throws. *)
Definition render (authenticated : bool) (st : PageState) : option Rendered :=
  if negb authenticated then Some LoginNotice
  else if loading st || js_not (preferences st) then
    Some (Settings (loading st) (shown (error st)) (shown (successMsg st)) None)
  else
    match toggles st with
    | Some form =>
        Some (Settings (loading st) (shown (error st)) (shown (successMsg st)) (Some form))
    | None => None
    end.

End Frontend.

(** ** Further vocabulary for the properties *)

(** A string that does not start with white space. *)
Definition clean_start (s : string) : Prop :=
  match s with
  | EmptyString => True
  | String c _ => js_white_space c = false
  end.

(** The answer of the write controller to a body that fails its validation. *)
Definition malformed_input : Response :=
  {| status := 400;
     json := Message "Malformed input: Invalid notification type or optedOut value." |}.

(** The four ways the write route goes. *)
Inductive PutCase (req : HttpRequest) (w : World) : Prop :=
  | PutUnauthorized (response : Response) (warning : string) :
      authMiddleware req = Unauthorized response warning ->
      status response = 401%nat ->
      route_PUT req w = (send response, w) ->
      PutCase req w
  | PutNoBody (u : string) :
      authMiddleware req = Authenticated u ->
      req_body req = JsUndefined \/ req_body req = JsNull ->
      route_PUT req w = (send (expressErrorHandler TypeError w), w) ->
      PutCase req w
  | PutMalformed (u : string) :
      authMiddleware req = Authenticated u ->
      req_body req <> JsUndefined -> req_body req <> JsNull ->
      route_PUT req w = (send malformed_input, w) ->
      PutCase req w
  | PutService (u : string) (t : PaymentNotificationType) (v : bool) :
      authMiddleware req = Authenticated u ->
      req_body req <> JsUndefined -> req_body req <> JsNull ->
      js_get (req_body req) "type" = JsString (type_value t) ->
      js_get (req_body req) "optedOut" = JsBoolean v ->
      route_PUT req w =
        (let call := updateUserNotificationPreference u t v (req_ip req)
                       (header_user_agent (attach_user u req)) w in
         match call.1 with
         | Return updatedPreferences =>
             (send {| status := 200; json := Updated true updatedPreferences |}, call.2)
         | Throw err => (send (expressErrorHandler (StorageError err) call.2), call.2)
         end) ->
      PutCase req w.

(** The body the API client sends for a write. *)
Definition update_payload (t : PaymentNotificationType) (v : bool) : JsValue :=
  JsObject [("type", JsString (type_value t)); ("optedOut", JsBoolean v)].

(** The first entry of a type in a list of preferences. *)
Definition first_of (t : PaymentNotificationType) (l : list NotificationPreference)
    : option NotificationPreference :=
  List.find (fun p => bool_decide (type p = t)) l.

(** The toggle the page shows for a type when the value to show is [v]. *)
Definition toggle_showing (st : Frontend.PageState) (t : PaymentNotificationType)
    (v : bool) : Frontend.OptOutToggleProps :=
  {| Frontend.id := "toggle-" +:+ type_value t;
     Frontend.checked := JsBoolean v;
     Frontend.disabled := default false (Frontend.saving st !! type_value t);
     Frontend.label := "Opt-out of " +:+ Frontend.double_quote
                       +:+ Frontend.notificationTypeLabels t
                       +:+ Frontend.double_quote +:+ " notifications" |}.

(** A page state renders: its [preferences] are still [null], or a list as
    the server sends it. *)
Definition renderable (st : Frontend.PageState) : Prop :=
  Frontend.preferences st = JsNull \/
  exists l, Frontend.preferences st = JsArray (json_of_preference <$> l).

(** A world whose next identifier is already in the audit log. *)
Definition collision_world : World :=
  {| db := db (run_calls example_calls example_world).2;
     session := None; faults := [];
     uuid_source := example_uuids; uuid_count := 0; clock := 9;
     error_page := fun _ => "<pre>Internal Server Error</pre>" |}.

(** A world with two users, one of whom has a row. *)
Definition bob : string := "6ba7b810-9dad-41d1-80b4-00c04fd430c8".

Definition shared_world : World :=
  {| db := {| users := {[ alice := "alice@example.com"; bob := "bob@example.com" ]};
              notification_preferences := {[ (bob, "payment_success") := false ]};
              audit_logs := [] |};
     session := None; faults := [];
     uuid_source := example_uuids; uuid_count := 0; clock := 0;
     error_page := fun _ => "<pre>Internal Server Error</pre>" |}.

(** A request as [curl] would send it. *)
Definition example_http_request (authorization : option string) (payload : JsValue)
    : HttpRequest :=
  {| req_authorization := authorization;
     req_user_agent := Some "curl/8.5.0";
     req_ip := Some "203.0.113.7";
     req_body := payload |}.

(** A page that holds one preference and is saving it. *)
Definition example_page : Frontend.PageState :=
  {| Frontend.preferences :=
       JsArray [json_of_preference {| type := PaymentRefund; optedOut := true |}];
     Frontend.loading := false;
     Frontend.saving := {[ "payment_refund" := true ]};
     Frontend.error := None;
     Frontend.successMsg := None |}.

(** * Properties *)

(** ** Reading a user's rows back into [prefMap] *)

Lemma prefMap_of_snoc (rows : list (string * bool)) (row : string * bool) :
  prefMap_of (rows ++ [row]) = <[row.1 := row.2]> (prefMap_of rows).
Proof. unfold prefMap_of. by rewrite foldl_app. Qed.

Lemma prefMap_of_lookup (rows : list (string * bool)) (k : string) (b : bool) :
  NoDup rows.*1 -> prefMap_of rows !! k = Some b <-> (k, b) ∈ rows.
Proof.
  induction rows as [|[k' b'] rows IH] using rev_ind; intros Hnd.
  - unfold prefMap_of; simpl. rewrite lookup_empty. split; [done|].
    by intros ?%elem_of_nil.
  - rewrite prefMap_of_snoc. rewrite fmap_app in Hnd.
    apply NoDup_app in Hnd as (Hnd & Hfresh & _). simpl in *.
    rewrite elem_of_app, list_elem_of_singleton.
    destruct (decide (k' = k)) as [->|Hne].
    + rewrite lookup_insert_eq. split.
      * intros [= ->]. by right.
      * intros [Hin|[= ->]]; [|done].
        exfalso. apply (Hfresh k); [|left].
        apply list_elem_of_fmap. by exists (k, b).
    + rewrite lookup_insert_ne by done. rewrite IH by done.
      split; [by left|]. intros [?|[= ? ?]]; [done|congruence].
Qed.

Lemma rows_of_user_elem (userId : string) (d : Database) (k : string) (b : bool) :
  (k, b) ∈ rows_of_user userId d <-> notification_preferences d !! (userId, k) = Some b.
Proof.
  unfold rows_of_user. rewrite list_elem_of_omap. split.
  - intros ([[u k'] b'] & Hin & Heq). simpl in Heq.
    case_decide; [|done]. simplify_eq. by apply elem_of_map_to_list in Hin.
  - intros Hl. exists (userId, k, b). split.
    + by apply elem_of_map_to_list.
    + simpl. by rewrite decide_True.
Qed.

Lemma rows_of_user_NoDup (userId : string) (d : Database) :
  NoDup (rows_of_user userId d).*1.
Proof.
  unfold rows_of_user.
  pose proof (NoDup_fst_map_to_list (notification_preferences d)) as Hnd.
  induction (map_to_list (notification_preferences d)) as [|[[u k] b] l IH];
    simpl in *; [constructor|].
  apply NoDup_cons in Hnd as [Hfresh Hnd].
  case_decide; simpl; [|by apply IH].
  apply NoDup_cons. split; [|by apply IH].
  intros Hin. apply Hfresh.
  apply list_elem_of_fmap in Hin as ([k' b'] & Hk & Hin). simpl in Hk. subst k'.
  apply list_elem_of_omap in Hin as ([[u' k'] b''] & Hin & Heq). simpl in Heq.
  case_decide; [|done]. simplify_eq.
  apply list_elem_of_fmap. eexists (_, _, _). split; [|exact Hin]. done.
Qed.

(** [prefMap[type]] is the stored row of the key, if any. *)
Lemma prefMap_of_rows (userId : string) (d : Database) (k : string) :
  prefMap_of (rows_of_user userId d) !! k = notification_preferences d !! (userId, k).
Proof.
  apply option_eq. intros b.
  rewrite prefMap_of_lookup by apply rows_of_user_NoDup.
  apply rows_of_user_elem.
Qed.

(** ** Rules for postconditions *)

Section Rules.
Context {A B : Type}.
Implicit Types (w : World) (Q : Outcome A -> World -> Prop).

Lemma ensures_ret (a : A) w Q :
  Q (Return a) w -> ensures (ret a) w Q.
Proof. done. Qed.

Lemma ensures_throw (e : PgError) w Q :
  Q (Throw e) w -> ensures (throw e) w Q.
Proof. done. Qed.

Lemma ensures_gets (f : World -> A) w Q :
  Q (Return (f w)) w -> ensures (gets f) w Q.
Proof. done. Qed.

Lemma ensures_bind (m : Promise B) (k : B -> Promise A) w Q :
  ensures m w (fun r w1 =>
    match r with
    | Return b => ensures (k b) w1 Q
    | Throw e => Q (Throw e) w1
    end) ->
  ensures (bind m k) w Q.
Proof. unfold ensures, bind. by destruct (m w) as [[b|e] w1]. Qed.

Lemma ensures_try (body : Promise A) (handler : PgError -> Promise A)
    (cleanup : Promise unit) w Q :
  ensures body w (fun r w1 =>
    match r with
    | Return a => Q (Return a) (cleanup w1).2
    | Throw e => ensures (handler e) w1 (fun r2 w2 => Q r2 (cleanup w2).2)
    end) ->
  ensures (try_catch_finally body handler cleanup) w Q.
Proof.
  unfold ensures, try_catch_finally.
  destruct (body w) as [[a|e] w1]; simpl; [done|].
  by destruct (handler e w1).
Qed.

Lemma ensures_consequence (m : Promise A) w Q (Q' : Outcome A -> World -> Prop) :
  ensures m w Q -> (forall r w1, Q r w1 -> Q' r w1) -> ensures m w Q'.
Proof. unfold ensures. auto. Qed.
End Rules.

Lemma ensures_effect (f : World -> World) w (Q : Outcome unit -> World -> Prop) :
  Q (Return tt) (f w) -> ensures (effect f) w Q.
Proof. done. Qed.

(** A round trip either fails on a raised fault flag or passes; both consume
    the flag. *)
Lemma ensures_round_trip w (Q : Outcome unit -> World -> Prop) :
  (forall fs, faults w = true :: fs -> Q (Throw ConnectionFailure) (tick fs w)) ->
  (head (faults w) <> Some true -> Q (Return tt) (tick (tail (faults w)) w)) ->
  ensures round_trip w Q.
Proof.
  intros Hfail Hpass. unfold ensures, round_trip.
  destruct (faults w) as [|[] fs] eqn:Hfs; simpl in *.
  - by apply Hpass.
  - by apply Hfail.
  - by apply Hpass.
Qed.

Lemma Forall_tail {X : Type} (P : X -> Prop) (l : list X) :
  Forall P l -> Forall P (tail l).
Proof. destruct 1; [constructor|done]. Qed.

Lemma reliable_no_fault (l fs : list bool) :
  Forall (fun b => b = false) l -> l = true :: fs -> False.
Proof. intros H ->. by apply Forall_cons in H as [? _]. Qed.

(** Symbolic execution of a promise, one construct at a time. A hypothesis
    [Forall _ (faults _)] about the round trips still to come is carried
    along. *)
Ltac world_simpl :=
  cbn [db session faults uuid_source uuid_count clock error_page
       set_db set_session tick draw current write client_release ret snd fst] in *.

Ltac still_reliable :=
  repeat apply Forall_tail; eassumption.

Ltac pass_round_trip :=
  let Hhd := fresh "Hpass" in
  intros Hhd.

Ltac fail_round_trip :=
  let fs := fresh "fs" in
  let Hfs := fresh "Hfault" in
  intros fs Hfs; world_simpl;
  try (exfalso; refine (reliable_no_fault _ _ _ Hfs); still_reliable).

Ltac run1 :=
  world_simpl;
  lazymatch goal with
  | |- ensures (bind _ _) _ _ => apply ensures_bind
  | |- ensures (ret _) _ _ => apply ensures_ret
  | |- ensures (throw _) _ _ => apply ensures_throw
  | |- ensures (gets _) _ _ => apply ensures_gets
  | |- ensures (effect _) _ _ => apply ensures_effect
  | |- ensures (try_catch_finally _ _ _) _ _ => apply ensures_try
  | |- ensures (try_finally _ _) _ _ => unfold try_finally; apply ensures_try
  | |- ensures round_trip _ _ =>
      apply ensures_round_trip; [fail_round_trip | pass_round_trip]
  | |- ensures pool_connect _ _ => unfold pool_connect
  | |- ensures query_BEGIN _ _ => unfold query_BEGIN
  | |- ensures query_COMMIT _ _ => unfold query_COMMIT
  | |- ensures query_ROLLBACK _ _ => unfold query_ROLLBACK
  | |- ensures (query_SELECT_preferences _) _ _ => unfold query_SELECT_preferences
  | |- ensures (query_SELECT_opted_out _ _) _ _ => unfold query_SELECT_opted_out
  | |- ensures (query_UPSERT_preference _ _ _) _ _ => unfold query_UPSERT_preference
  | |- ensures (query_INSERT_audit_log _ _ _ _ _ _ _) _ _ => unfold query_INSERT_audit_log
  | |- ensures uuidv4 _ _ => unfold uuidv4
  | |- ensures (uuid_param ?x) _ _ =>
      unfold uuid_param;
      first [ match goal with H : uuid_in x = _ |- _ => rewrite H end
            | destruct (uuid_in x) eqn:? ]
  | |- ensures (match ?x with _ => _ end) _ _ => destruct x eqn:?
  end.

Ltac run := repeat run1.

(** ** The read path *)

(** The effective value is read at the value the id denotes. *)
Lemma effective_uuid (d : Database) (userId u : string) (t : PaymentNotificationType) :
  uuid_in userId = Some u ->
  effective d userId t = default false (notification_preferences d !! (u, type_value t)).
Proof. unfold effective. by intros ->. Qed.

Lemma effective_no_uuid (d : Database) (userId : string) (t : PaymentNotificationType) :
  uuid_in userId = None -> effective d userId t = false.
Proof. unfold effective. by intros ->. Qed.

(** Two texts of one value have the same effective values, and so the same
    view. *)
Lemma effective_same_uuid (d : Database) (userId userId' : string)
    (t : PaymentNotificationType) :
  uuid_in userId = uuid_in userId' -> effective d userId t = effective d userId' t.
Proof. unfold effective. by intros ->. Qed.

Lemma view_same_uuid (d : Database) (userId userId' : string) :
  uuid_in userId = uuid_in userId' -> view d userId = view d userId'.
Proof.
  intros Heq. unfold view. apply list_fmap_ext. intros _ t _.
  by rewrite (effective_same_uuid d userId userId' t Heq).
Qed.

Lemma view_of_prefMap (d : Database) (userId u : string) :
  uuid_in userId = Some u ->
  (fun t => {| type := t;
               optedOut := default false (prefMap_of (rows_of_user u d) !! type_value t) |})
    <$> allTypes = view d userId.
Proof.
  intros Hu. unfold view. apply list_fmap_ext. intros _ t _.
  by rewrite prefMap_of_rows, (effective_uuid _ _ _ _ Hu).
Qed.

Ltac by_reliability w :=
  let Hrel := fresh "Hrel" in
  destruct (decide (reliable w)) as [Hrel|Hrel]; [unfold reliable in Hrel|].

(** [getUserNotificationPreferences] reads the committed state and changes
    nothing; it fails only on a failed round trip, or on an id that is not
    the text of a UUID. *)
Lemma getUserNotificationPreferences_ensures (userId : string) (w : World) :
  ensures (getUserNotificationPreferences userId) w (fun r w' =>
    db w' = db w /\
    ((r = Return (view (db w) userId) /\ is_Some (uuid_in userId)) \/
     (r = Throw ConnectionFailure /\ ~ reliable w) \/
     (r = Throw InvalidTextRepresentation /\ uuid_in userId = None))).
Proof.
  unfold getUserNotificationPreferences.
  destruct (uuid_in userId) as [u|] eqn:Hu.
  all: by_reliability w; run; rewrite ?(view_of_prefMap _ _ _ Hu); eauto 6.
Qed.

(** ** The notification gate *)

(** [shouldSendNotification] reads the committed state and changes nothing;
    it fails only on a failed round trip, or on an id that is not the text
    of a UUID. *)
Lemma shouldSendNotification_ensures (userId : string) (ty : PaymentNotificationType)
    (w : World) :
  ensures (shouldSendNotification userId ty) w (fun r w' =>
    db w' = db w /\
    ((r = Return (negb (effective (db w) userId ty)) /\ is_Some (uuid_in userId))
     \/ (r = Throw ConnectionFailure /\ ~ reliable w)
     \/ (r = Throw InvalidTextRepresentation /\ uuid_in userId = None))).
Proof.
  unfold shouldSendNotification.
  destruct (uuid_in userId) as [u|] eqn:Hu.
  all: by_reliability w; run; eauto 6.
  all: rewrite (effective_uuid _ _ _ _ Hu).
  all: unfold rows_of_key in *.
  all: destruct (notification_preferences (db w) !! (u, type_value ty));
    simplify_eq; eauto 6.
Qed.

(** ** The write path *)

Lemma effective_committed_change userId t optedOut ip ua at_ w :
  is_Some (uuid_in userId) ->
  effective (committed_change userId t optedOut ip ua at_ w) userId t = optedOut.
Proof.
  intros [u Hu]. unfold committed_change. rewrite Hu.
  rewrite (effective_uuid _ _ _ _ Hu). simpl. by rewrite lookup_insert_eq.
Qed.

(** [oldRows.length > 0 ? oldRows[0].opted_out : false]. *)
Lemma old_value_effective (userId u : string) (t : PaymentNotificationType)
    (d : Database) :
  uuid_in userId = Some u ->
  match rows_of_key u (type_value t) d with
  | [] => false
  | r :: _ => r
  end = effective d userId t.
Proof.
  intros Hu. rewrite (effective_uuid _ _ _ _ Hu). unfold rows_of_key.
  by destruct (notification_preferences d !! (u, type_value t)).
Qed.

Lemma insertable_iff (userId u : string) (t : PaymentNotificationType) (d : Database) :
  uuid_in userId = Some u ->
  insertable userId t d <->
  ~ (notification_preferences d !! (u, type_value t) = None /\
     users d !! u = None).
Proof.
  intros Hu. unfold insertable. split.
  - intros (u' & Hu' & Hrow) [Hp Hus].
    assert (u' = u) as -> by congruence.
    rewrite Hp, Hus in Hrow. destruct Hrow as [[? ?]|[? ?]]; discriminate.
  - intros Hnot. exists u. split; [done|].
    rewrite <- !not_eq_None_Some.
    destruct (notification_preferences d !! (u, type_value t)), (users d !! u);
      intuition congruence.
Qed.

Lemma not_insertable_no_uuid (userId : string) (t : PaymentNotificationType)
    (d : Database) :
  uuid_in userId = None -> ~ insertable userId t d.
Proof. intros Hnone (u & Hu & _). congruence. Qed.

Ltac run_nested :=
  lazymatch goal with
  | |- ensures (getUserNotificationPreferences _) _ _ =>
      eapply ensures_consequence;
      [apply getUserNotificationPreferences_ensures|];
      let Hdb := fresh "Hdb" in
      let w1 := fresh "w" in
      let Hunrel := fresh "Hunrel" in
      let Hnone := fresh "Hnone" in
      intros ? w1 [Hdb [[-> _]|[[-> Hunrel]|[-> Hnone]]]]; destruct w1; world_simpl; subst;
      try (exfalso; apply Hunrel; unfold reliable; world_simpl; still_reliable);
      try congruence
  end.

Lemma updateUserNotificationPreference_ensures
    (userId : string) (t : PaymentNotificationType) (optedOut : bool)
    (ip ua : option string) (w : World) :
  ensures (updateUserNotificationPreference userId t optedOut ip ua) w (fun r w' =>
    (db w' = db w \/
     (effective (db w) userId t <> optedOut /\ insertable userId t (db w) /\ fresh_id w /\
      exists at_, db w' = committed_change userId t optedOut ip ua at_ w)) /\
    (forall x, r = Return x ->
       x = view (db w') userId /\ effective (db w') userId t = optedOut) /\
    (forall e, r = Throw e ->
       (e = ConnectionFailure /\ ~ reliable w) \/
       (e = ForeignKeyViolation /\ effective (db w) userId t <> optedOut /\
        ~ insertable userId t (db w) /\ is_Some (uuid_in userId)) \/
       (e = UniqueViolation /\ effective (db w) userId t <> optedOut /\
        insertable userId t (db w) /\ ~ fresh_id w) \/
       (e = InvalidTextRepresentation /\ uuid_in userId = None)) /\
    (forall x, r = Return x -> is_Some (uuid_in userId))).
Proof.
  unfold updateUserNotificationPreference.
  destruct (uuid_in userId) as [u|] eqn:Hu.
  all: by_reliability w; repeat first [run1 | run_nested].
  all: world_simpl; rewrite ?(old_value_effective _ _ _ _ Hu) in *.
  all: repeat match goal with
         | H : negb (eqb _ _) = true |- _ =>
             rewrite negb_true_iff, eqb_false_iff in H
         | H : negb (eqb _ _) = false |- _ =>
             rewrite negb_false_iff, eqb_true_iff in H
         end.
  all: cbn [upsert append_audit audit_logs users notification_preferences] in *.
  all: try (assert (insertable userId t (db w))
              by (apply (insertable_iff _ _ _ _ Hu); intros [? ?]; congruence)).
  all: try (assert (~ insertable userId t (db w))
              by (rewrite (insertable_iff _ _ _ _ Hu); tauto)).
  all: split; [|split; [|split]];
    [| intros x [= <-] | intros e' [= <-] | intros x [= <-]]; auto.
  all: try (by eexists).
  all: try (right; unfold fresh_id, audit_ids; split_and!; [done..|];
            eexists; unfold committed_change; rewrite Hu; reflexivity).
  all: try (split; [done|];
            rewrite !(effective_uuid _ _ _ _ Hu);
            cbn [notification_preferences append_audit upsert];
            by rewrite lookup_insert_eq).
  all: try (assert (is_Some (Some u)) by (by eexists)).
  all: unfold fresh_id, audit_ids; tauto.
Qed.

(** The master lemma again, on the outcome and the world of the call. *)
Section WritePath.
Variables (userId : string) (t : PaymentNotificationType) (optedOut : bool)
          (ip ua : option string) (w : World).

Let r := (updateUserNotificationPreference userId t optedOut ip ua w).1.
Let w' := (updateUserNotificationPreference userId t optedOut ip ua w).2.

Lemma update_state :
  db w' = db w \/
  (effective (db w) userId t <> optedOut /\ insertable userId t (db w) /\ fresh_id w /\
   exists at_, db w' = committed_change userId t optedOut ip ua at_ w).
Proof. apply (updateUserNotificationPreference_ensures userId t optedOut ip ua w). Qed.

Lemma update_returns (x : list NotificationPreference) :
  r = Return x -> x = view (db w') userId /\ effective (db w') userId t = optedOut.
Proof. apply (updateUserNotificationPreference_ensures userId t optedOut ip ua w). Qed.

Lemma update_throws (e : PgError) :
  r = Throw e ->
  (e = ConnectionFailure /\ ~ reliable w) \/
  (e = ForeignKeyViolation /\ effective (db w) userId t <> optedOut /\
   ~ insertable userId t (db w) /\ is_Some (uuid_in userId)) \/
  (e = UniqueViolation /\ effective (db w) userId t <> optedOut /\
   insertable userId t (db w) /\ ~ fresh_id w) \/
  (e = InvalidTextRepresentation /\ uuid_in userId = None).
Proof. apply (updateUserNotificationPreference_ensures userId t optedOut ip ua w). Qed.

(** The call returns only for an id that is the text of a UUID. *)
Lemma update_returns_uuid (x : list NotificationPreference) :
  r = Return x -> is_Some (uuid_in userId).
Proof. apply (updateUserNotificationPreference_ensures userId t optedOut ip ua w). Qed.

(** A call that asks for the value already in effect changes nothing. *)
Lemma update_same_value :
  effective (db w) userId t = optedOut -> db w' = db w.
Proof. destruct update_state as [?|[? _]]; [done|congruence]. Qed.

End WritePath.

Lemma type_value_inj (t1 t2 : PaymentNotificationType) :
  type_value t1 = type_value t2 -> t1 = t2.
Proof. by destruct t1, t2. Qed.

(** The entries of [view]: one per known type, in the order of the enum. *)
Lemma view_types (d : Database) (userId : string) :
  type <$> view d userId = allTypes.
Proof. reflexivity. Qed.

Lemma view_entry (d : Database) (userId : string) (p : NotificationPreference) :
  p ∈ view d userId -> optedOut p = effective d userId (type p).
Proof.
  unfold view. intros (t & -> & _)%list_elem_of_fmap. reflexivity.
Qed.

Lemma view_has_entry (d : Database) (userId : string) (t : PaymentNotificationType) :
  {| type := t; optedOut := effective d userId t |} ∈ view d userId.
Proof.
  unfold view. apply list_elem_of_fmap. exists t. split; [done|].
  unfold allTypes. destruct t; set_solver.
Qed.

(** * The claims *)

(** C1. The preference upsert and the audit-log append of a call to
    [updateUserNotificationPreference] commit together or not at all.
    Whatever world the call runs in (so whichever storage round trip
    fails, and whether the call returns or throws), the committed state
    afterwards is either the one before, in both tables, or it has both the
    upserted row and exactly one appended audit entry for that row, which
    records the transition from the old effective value to the new one. The
    row and the entry carry the UUID value the id denotes, in the text the
    server prints for it. *)
Theorem update_commits_both_or_neither
    (userId : string) (t : PaymentNotificationType) (optedOut : bool)
    (ip ua : option string) (w : World) :
  let w' := (updateUserNotificationPreference userId t optedOut ip ua w).2 in
  (notification_preferences (db w') = notification_preferences (db w) /\
   audit_logs (db w') = audit_logs (db w))
  \/
  (exists (c : string) (e : AuditLogEntry),
     uuid_in userId = Some c /\
     notification_preferences (db w')
       = <[(c, type_value t) := optedOut]> (notification_preferences (db w)) /\
     audit_logs (db w') = audit_logs (db w) ++ [e] /\
     user_id e = c /\ notification_type e = type_value t /\
     transition e = (effective (db w) userId t, optedOut) /\
     effective (db w) userId t <> optedOut).
Proof.
  intros w'. subst w'.
  destruct (update_state userId t optedOut ip ua w)
    as [->|(Hne & (c & Hc & _) & _ & at_ & ->)]; [by left|].
  right. exists c. eexists. unfold committed_change. rewrite Hc. simpl.
  split_and!; try done.
Qed.

(** C9. A call to [updateUserNotificationPreference userId t v] leaves
    every preference row of another key and the [users] table as they
    were, keeps every audit entry that existed, in place, and appends at
    most one entry. Keys are told apart as the storage does: a row is of
    another key when its user is not the UUID value the id denotes, or its
    type is another. *)
Theorem update_frame
    (userId : string) (t : PaymentNotificationType) (optedOut : bool)
    (ip ua : option string) (w : World) :
  let w' := (updateUserNotificationPreference userId t optedOut ip ua w).2 in
  (forall (u ty : string), (uuid_in userId, ty) <> (Some u, type_value t) ->
     notification_preferences (db w') !! (u, ty)
     = notification_preferences (db w) !! (u, ty)) /\
  users (db w') = users (db w) /\
  (exists appended : list AuditLogEntry,
     audit_logs (db w') = audit_logs (db w) ++ appended /\
     (length appended <= 1)%nat /\
     (forall (i : nat) (e : AuditLogEntry),
        audit_logs (db w) !! i = Some e -> audit_logs (db w') !! i = Some e)).
Proof.
  intros w'. subst w'.
  destruct (update_state userId t optedOut ip ua w)
    as [->|(Hne & (c & Hc & _) & _ & at_ & ->)].
  - split_and!; try done. exists []. rewrite app_nil_r. split_and!; auto.
  - unfold committed_change. rewrite Hc. simpl. split_and!; try done.
    + intros u ty Hkey. rewrite lookup_insert_ne; [done|]. congruence.
    + eexists [_]. split_and!; try done.
      intros i e Hi. by apply lookup_app_l_Some.
Qed.

(** A call under another spelling of the id of [alice] commits a new row
    for her, and her row of another type stays. *)
Lemma update_frame_witness :
  let w := (run_calls example_calls example_world).2 in
  let call := updateUserNotificationPreference
                "3F2B8C1E-58CC-4372-A567-0E02B2C3D479" PaymentFailure true None None w in
  succeeded call.1 = true /\
  notification_preferences (db w) !! (alice, "payment_failure") = None /\
  notification_preferences (db call.2) !! (alice, "payment_failure") = Some true /\
  length (audit_logs (db call.2)) = S (length (audit_logs (db w))) /\
  notification_preferences (db call.2) !! (alice, "payment_refund") = Some true.
Proof.
  intros w call. split_and!; [by vm_compute..|].
  subst call.
  rewrite (proj1 (update_frame "3F2B8C1E-58CC-4372-A567-0E02B2C3D479"
                    PaymentFailure true None None w)).
  - vm_compute. reflexivity.
  - vm_compute. discriminate.
Defined.

(** C3. When the value asked for is the one in effect for the key (no row
    counting as [false]), [updateUserNotificationPreference] writes no
    preference row and appends no audit entry: the committed database is
    the one before. For an id that is the text of a UUID it still returns
    the full current view, unless a round trip fails; an id that is not is
    rejected by the first statement that takes it (22P02). Consequently a
    second call with the same value, right after one that returned, appends
    nothing. *)
Theorem update_same_value_is_noop
    (userId : string) (t : PaymentNotificationType) (optedOut : bool)
    (ip ua : option string) (w : World) :
  let r := (updateUserNotificationPreference userId t optedOut ip ua w).1 in
  let w' := (updateUserNotificationPreference userId t optedOut ip ua w).2 in
  (effective (db w) userId t = optedOut ->
   db w' = db w /\
   (r = Return (view (db w) userId) \/
    (r = Throw ConnectionFailure /\ ~ reliable w) \/
    (r = Throw InvalidTextRepresentation /\ uuid_in userId = None)) /\
   (reliable w -> is_Some (uuid_in userId) -> r = Return (view (db w) userId))) /\
  (forall ip2 ua2 : option string,
     succeeded r = true ->
     let w'' := (updateUserNotificationPreference userId t optedOut ip2 ua2 w').2 in
     db w'' = db w' /\ audit_logs (db w'') = audit_logs (db w')).
Proof.
  intros r w'. split.
  - intros Hsame.
    pose proof (update_same_value userId t optedOut ip ua w Hsame) as Hdb.
    assert (r = Return (view (db w) userId) \/
            (r = Throw ConnectionFailure /\ ~ reliable w) \/
            (r = Throw InvalidTextRepresentation /\ uuid_in userId = None)) as Hr.
    { subst r w'.
      destruct (updateUserNotificationPreference userId t optedOut ip ua w).1
        as [x|e] eqn:Hr.
      - left. apply update_returns in Hr as [-> _]. by rewrite Hdb.
      - right.
        apply update_throws in Hr
          as [[-> ?]|[(_ & ? & _)|[(_ & ? & _)|[-> ?]]]]; auto; done. }
    split_and!; [done..|].
    intros Hrel [u Hu]. destruct Hr as [?|[[_ ?]|[_ ?]]]; [done|done|congruence].
  - intros ip2 ua2 Hok w''.
    assert (db w'' = db w') as ->; [|done].
    apply update_same_value. subst r w'.
    destruct (updateUserNotificationPreference userId t optedOut ip ua w).1
      as [x|e] eqn:Hr; [|done].
    by apply update_returns in Hr as [_ ?].
Qed.

Lemma update_same_value_is_noop_witness :
  (updateUserNotificationPreference alice PaymentRefund false None None example_world).1
    = Return (view (db example_world) alice) /\
  audit_logs
    (db (updateUserNotificationPreference alice PaymentSuccess true None None
           (updateUserNotificationPreference alice PaymentSuccess true None None
              example_world).2).2)
    = audit_logs
        (db (updateUserNotificationPreference alice PaymentSuccess true None None
               example_world).2).
Proof.
  split.
  - apply (update_same_value_is_noop alice PaymentRefund false None None example_world).
    + reflexivity.
    + constructor.
    + vm_compute. by eexists.
  - apply (update_same_value_is_noop alice PaymentSuccess true None None example_world).
    vm_compute. reflexivity.
Defined.

(** C4. For every user, [getUserNotificationPreferences] returns exactly
    one entry per known type, in the order of the enum, with the stored
    [opted_out] where the user has a row for the type and [false]
    otherwise; it changes no table. The user is the UUID value the id
    denotes. Only a failed round trip makes the call throw for such an id,
    so with reliable storage it returns for every user, also one without
    any row, whose view is all [false]; an id that is not the text of a
    UUID is rejected by the [SELECT] (22P02). *)
Theorem getUserNotificationPreferences_full_view (userId : string) (w : World) :
  let r := (getUserNotificationPreferences userId w).1 in
  let w' := (getUserNotificationPreferences userId w).2 in
  db w' = db w /\
  (forall x, r = Return x ->
     exists u, uuid_in userId = Some u /\
     type <$> x = [PaymentSuccess; PaymentFailure; PaymentRefund] /\
     (forall p, p ∈ x ->
        optedOut p =
          match notification_preferences (db w) !! (u, type_value (type p)) with
          | Some stored => stored
          | None => false
          end) /\
     ((forall ty, notification_preferences (db w) !! (u, ty) = None) ->
      x = [ {| type := PaymentSuccess; optedOut := false |};
            {| type := PaymentFailure; optedOut := false |};
            {| type := PaymentRefund; optedOut := false |} ])) /\
  (reliable w -> is_Some (uuid_in userId) -> exists x, r = Return x) /\
  (uuid_in userId = None ->
   r = Throw InvalidTextRepresentation \/ (r = Throw ConnectionFailure /\ ~ reliable w)).
Proof.
  intros r w'.
  destruct (getUserNotificationPreferences_ensures userId w) as [Hdb Hr].
  fold r w' in Hdb, Hr. split_and!; [done| | |].
  - intros x Hx. destruct Hr as [[Hr [u Hu]]|[[Hr _]|[Hr _]]]; [|congruence..].
    assert (x = view (db w) userId) as -> by congruence.
    exists u. split_and!; [done|done| |].
    + intros p Hp. rewrite (view_entry _ _ _ Hp), (effective_uuid _ _ _ _ Hu).
      by destruct (notification_preferences (db w) !! _).
    + intros Hnone. unfold view. simpl.
      by rewrite !(effective_uuid _ _ _ _ Hu), !Hnone.
  - intros Hrel [u Hu]. destruct Hr as [[Hr _]|[[_ ?]|[_ ?]]]; [eauto|done|congruence].
  - intros Hnone. destruct Hr as [[_ [u Hu]]|[?|[? _]]]; [congruence|auto..].
Qed.

Lemma getUserNotificationPreferences_full_view_witness :
  exists x, (getUserNotificationPreferences mallory example_world).1 = Return x.
Proof.
  apply (getUserNotificationPreferences_full_view mallory example_world).
  - constructor.
  - vm_compute. by eexists.
Defined.

(** C7. When [updateUserNotificationPreference] returns, it returns the
    full preference view of the read path over the state it leaves: exactly
    one entry per known type in the order of the enum, and the entry of the
    written type holds the value asked for. *)
Theorem update_returns_fresh_view
    (userId : string) (t : PaymentNotificationType) (newOptedOut : bool)
    (ip ua : option string) (w : World) (x : list NotificationPreference) :
  let w' := (updateUserNotificationPreference userId t newOptedOut ip ua w).2 in
  (updateUserNotificationPreference userId t newOptedOut ip ua w).1 = Return x ->
  type <$> x = [PaymentSuccess; PaymentFailure; PaymentRefund] /\
  {| type := t; optedOut := newOptedOut |} ∈ x /\
  (forall p, p ∈ x -> type p = t -> optedOut p = newOptedOut) /\
  (forall w2, db w2 = db w' -> reliable w2 ->
     (getUserNotificationPreferences userId w2).1 = Return x).
Proof.
  intros w' Hr. pose proof (update_returns_uuid _ _ _ _ _ _ _ Hr) as [u Hu].
  apply update_returns in Hr as [-> Heff]. fold w' in Heff |- *.
  split_and!; [done| | |].
  - rewrite <- Heff at 1. apply view_has_entry.
  - intros p Hp <-. by rewrite (view_entry _ _ _ Hp).
  - intros w2 Hdb Hrel.
    destruct (getUserNotificationPreferences_ensures userId w2)
      as [_ [[Hr _]|[[_ ?]|[_ ?]]]]; [|done|congruence].
    by rewrite Hr, Hdb.
Qed.

Lemma update_returns_fresh_view_witness :
  {| type := PaymentFailure; optedOut := true |}
    ∈ [ {| type := PaymentSuccess; optedOut := false |};
        {| type := PaymentFailure; optedOut := true |};
        {| type := PaymentRefund; optedOut := false |} ].
Proof.
  apply (update_returns_fresh_view alice PaymentFailure true None None example_world).
  vm_compute. reflexivity.
Defined.

(** ** The controller *)

Lemma type_of_value_type_value (t : PaymentNotificationType) :
  type_of_value (type_value t) = Some t.
Proof. by destruct t. Qed.

(** A well-formed body reaches the service. *)
Lemma handler_calls_service (req : Request) (t : PaymentNotificationType) (v : bool)
    (w : World) :
  js_get (body req) "type" = JsString (type_value t) ->
  js_get (body req) "optedOut" = JsBoolean v ->
  updateNotificationPreferenceHandler req w =
    match updateUserNotificationPreference
            (id (user req)) t v (ip req) (header_user_agent req) w with
    | (Return updatedPreferences, w1) =>
        ({| status := 200; json := Updated true updatedPreferences |}, w1)
    | (Throw err, w1) => (expressErrorHandler (StorageError err) w1, w1)
    end.
Proof.
  intros Hty Hv. unfold updateNotificationPreferenceHandler.
  destruct (body req) as [| | | | | |members]; try discriminate Hty.
  rewrite Hty, Hv, type_of_value_type_value. by destruct t.
Qed.

Lemma js_includes_type_spec (v : JsValue) :
  js_includes_type v = true <-> exists t, v = JsString (type_value t).
Proof.
  split.
  - destruct v as [| | | |s| |]; try done. unfold js_includes_type.
    intros Hin%bool_decide_eq_true.
    apply list_elem_of_fmap in Hin as (t & -> & _). by exists t.
  - intros [t ->]. unfold js_includes_type. apply bool_decide_eq_true.
    apply list_elem_of_fmap. exists t. split; [done|].
    unfold allTypes. destruct t; set_solver.
Qed.

(** Past the validation the body is well-formed, so the controller either
    answers 400 or calls the service. *)
Lemma handler_validates (req : Request) :
  js_not (js_get (body req) "type")
  || negb (js_includes_type (js_get (body req) "type"))
  || js_not_boolean (js_get (body req) "optedOut") = false ->
  exists t v, js_get (body req) "type" = JsString (type_value t) /\
              js_get (body req) "optedOut" = JsBoolean v.
Proof.
  intros Hcheck.
  apply orb_false_iff in Hcheck as [Hcheck Hbool].
  apply orb_false_iff in Hcheck as [_ Hinc].
  apply negb_false_iff, js_includes_type_spec in Hinc as [t Ht].
  exists t. destruct (js_get (body req) "optedOut") as [| |v| | | |]; try done.
  by exists v.
Qed.

(** C5. A write request whose [type] is not a member of the enum, or whose
    [optedOut] is not a boolean, never reaches the service: the world is
    returned untouched, so no round trip to the storage was made and neither
    table changed. When the request has a body to read the two members off
    (anything but [undefined] and [null]), the controller itself answers
    with status 400, the invalid argument response; reading them off
    [undefined] or [null] throws, and Express answers 500. *)
Theorem handler_rejects_malformed_input (req : Request) (w : World) :
  (forall t, js_get (body req) "type" <> JsString (type_value t)) \/
  (forall b, js_get (body req) "optedOut" <> JsBoolean b) ->
  (updateNotificationPreferenceHandler req w).2 = w /\
  (body req <> JsUndefined -> body req <> JsNull ->
   updateNotificationPreferenceHandler req w =
     ({| status := 400;
         json := Message "Malformed input: Invalid notification type or optedOut value." |},
      w)) /\
  (body req = JsUndefined \/ body req = JsNull ->
   updateNotificationPreferenceHandler req w = (expressErrorHandler TypeError w, w)).
Proof.
  intros Hbad.
  assert (body req <> JsUndefined -> body req <> JsNull ->
          updateNotificationPreferenceHandler req w =
            ({| status := 400;
                json := Message "Malformed input: Invalid notification type or optedOut value." |},
             w)) as H400.
  { intros Hundef Hnull. unfold updateNotificationPreferenceHandler.
    destruct (js_not (js_get (body req) "type")
              || negb (js_includes_type (js_get (body req) "type"))
              || js_not_boolean (js_get (body req) "optedOut")) eqn:Hcheck.
    - by destruct (body req).
    - exfalso.
      apply handler_validates in Hcheck as (t & v & Ht & Hv).
      destruct Hbad as [Hbad|Hbad]; [by apply (Hbad t)|by apply (Hbad v)]. }
  assert (body req = JsUndefined \/ body req = JsNull ->
          updateNotificationPreferenceHandler req w = (expressErrorHandler TypeError w, w)) as H500.
  { unfold updateNotificationPreferenceHandler. by intros [->| ->]. }
  split_and!; [|done..].
  destruct (body req) eqn:Hbody.
  1, 2: rewrite H500; auto.
  all: rewrite H400; done.
Qed.

Lemma handler_rejects_malformed_input_witness :
  status (updateNotificationPreferenceHandler
            (example_request (JsString "unknown_category") (JsBoolean true))
            example_world).1 = 400%nat /\
  (updateNotificationPreferenceHandler
     (example_request (JsString "payment_success") (JsString "yes"))
     example_world).2 = example_world.
Proof.
  split.
  - destruct (handler_rejects_malformed_input
                (example_request (JsString "unknown_category") (JsBoolean true))
                example_world) as (_ & H400 & _).
    + left. intros t. vm_compute. destruct t; discriminate.
    + rewrite H400; [reflexivity|discriminate..].
  - apply (handler_rejects_malformed_input
             (example_request (JsString "payment_success") (JsString "yes"))
             example_world).
    right. intros b. vm_compute. discriminate.
Defined.

(** ** Unknown users *)

Lemma fk_no_row (d : Database) (userId : string) (t : PaymentNotificationType) :
  fk_consistent d ->
  (forall u, uuid_in userId = Some u -> users d !! u = None) ->
  ~ insertable userId t d.
Proof.
  intros Hfk Hnone (u & Hu & Hrow). specialize (Hnone u Hu).
  destruct Hrow as [Hrow|Huser].
  - apply Hfk in Hrow. rewrite Hnone in Hrow. by destruct Hrow.
  - rewrite Hnone in Huser. by destruct Huser.
Qed.

(** C10. For an id that denotes no user with a row in [users] (in a
    database that honours the foreign key), a call that would change the
    effective value does not return: it throws a storage error and commits
    nothing. With every round trip passing, the error is the foreign-key
    violation 23503 of the insert when the id is the text of a UUID, and
    the rejection 22P02 of the first statement that takes the id when it is
    not. The controller passes the error on and Express answers with status
    500, not with the 400 of an invalid argument. The service itself never
    looks the user up: when the value asked for is the one in effect, the
    same call returns normally for an id that is the text of a UUID, with
    reliable storage. *)
Theorem update_unknown_user_fails
    (userId : string) (t : PaymentNotificationType) (v : bool)
    (ipAddress userAgent : option string) (w : World) :
  fk_consistent (db w) ->
  (forall u, uuid_in userId = Some u -> users (db w) !! u = None) ->
  let r := (updateUserNotificationPreference userId t v ipAddress userAgent w).1 in
  let w' := (updateUserNotificationPreference userId t v ipAddress userAgent w).2 in
  (effective (db w) userId t <> v ->
   db w' = db w /\
   (exists e, r = Throw e /\
              ((e = ForeignKeyViolation /\ is_Some (uuid_in userId)) \/
               (e = InvalidTextRepresentation /\ uuid_in userId = None) \/
               (e = ConnectionFailure /\ ~ reliable w))) /\
   (reliable w -> is_Some (uuid_in userId) -> r = Throw ForeignKeyViolation) /\
   (reliable w -> uuid_in userId = None -> r = Throw InvalidTextRepresentation) /\
   (forall req,
      id (user req) = userId ->
      js_get (body req) "type" = JsString (type_value t) ->
      js_get (body req) "optedOut" = JsBoolean v ->
      status (updateNotificationPreferenceHandler req w).1 = 500%nat /\
      db (updateNotificationPreferenceHandler req w).2 = db w)) /\
  (effective (db w) userId t = v -> reliable w -> is_Some (uuid_in userId) ->
   exists x, r = Return x).
Proof.
  intros Hfk Hnone r w'.
  pose proof (fk_no_row _ _ t Hfk Hnone) as Hnot.
  assert (forall ip' ua', effective (db w) userId t <> v ->
            db (updateUserNotificationPreference userId t v ip' ua' w).2 = db w /\
            exists e, (updateUserNotificationPreference userId t v ip' ua' w).1 = Throw e /\
                      ((e = ForeignKeyViolation /\ is_Some (uuid_in userId)) \/
                       (e = InvalidTextRepresentation /\ uuid_in userId = None) \/
                       (e = ConnectionFailure /\ ~ reliable w)))
    as Hfail.
  { intros ip' ua' Hne.
    destruct (update_state userId t v ip' ua' w) as [Hdb|(_ & ? & _)]; [|done].
    split; [done|].
    destruct (updateUserNotificationPreference userId t v ip' ua' w).1 as [x|e] eqn:Hr.
    - apply update_returns in Hr as [_ Heff]. rewrite Hdb in Heff. done.
    - exists e. split; [done|].
      apply update_throws in Hr
        as [?|[(? & _ & _ & ?)|[(_ & _ & ? & _)|?]]]; auto; done. }
  split.
  - intros Hne. destruct (Hfail ipAddress userAgent Hne) as (Hdb & e & Hr & He).
    fold r in Hr. fold w' in Hdb. split_and!; [done|by exists e| | |].
    + intros Hrel [u Hu]. rewrite Hr. f_equal.
      destruct He as [[? _]|[[_ ?]|[_ ?]]]; [done|congruence|done].
    + intros Hrel Hu. rewrite Hr. f_equal.
      destruct He as [[_ [u ?]]|[[? _]|[_ ?]]]; [congruence|done|done].
    + intros req Hid Hty Hv.
      rewrite (handler_calls_service req t v w Hty Hv), Hid.
      destruct (Hfail (ip req) (header_user_agent req) Hne)
        as (Hdb' & e' & Hr' & He').
      destruct (updateUserNotificationPreference userId t v (ip req)
                  (header_user_agent req) w) as [r0 w0].
      simpl in *. by subst r0.
  - intros Hsame Hrel [u Hu]. subst r.
    destruct (updateUserNotificationPreference userId t v ipAddress userAgent w).1 as [x|e] eqn:Hr;
      [by exists x|].
    apply update_throws in Hr as [[_ ?]|[(_ & ? & _)|[(_ & ? & _)|[_ ?]]]];
      [done|done|done|congruence].
Qed.

Lemma update_unknown_user_fails_witness :
  (updateUserNotificationPreference mallory PaymentSuccess true None None example_world).1
    = Throw ForeignKeyViolation /\
  (updateUserNotificationPreference "user-123" PaymentSuccess true None None
     example_world).1
    = Throw InvalidTextRepresentation /\
  (exists x,
     (updateUserNotificationPreference mallory PaymentSuccess false None None
        example_world).1 = Return x).
Proof.
  split_and!.
  - apply (update_unknown_user_fails mallory PaymentSuccess true None None example_world).
    + intros u ty [b Hb]. vm_compute in Hb. discriminate.
    + intros u Hu. vm_compute in Hu. injection Hu as <-. vm_compute. reflexivity.
    + vm_compute. discriminate.
    + constructor.
    + vm_compute. by eexists.
  - apply (update_unknown_user_fails "user-123" PaymentSuccess true None None
             example_world).
    + intros u ty [b Hb]. vm_compute in Hb. discriminate.
    + intros u Hu. vm_compute in Hu. discriminate.
    + vm_compute. discriminate.
    + constructor.
    + vm_compute. reflexivity.
  - apply (update_unknown_user_fails mallory PaymentSuccess false None None example_world).
    + intros u ty [b Hb]. vm_compute in Hb. discriminate.
    + intros u Hu. vm_compute in Hu. injection Hu as <-. vm_compute. reflexivity.
    + vm_compute. reflexivity.
    + constructor.
    + vm_compute. by eexists.
Defined.

(** ** Sequences of calls *)

Lemma run_calls_cons (c : Call) (cs : list Call) (w : World) :
  (run_calls (c :: cs) w).1 = (perform c w).1 :: (run_calls cs (perform c w).2).1 /\
  (run_calls (c :: cs) w).2 = (run_calls cs (perform c w).2).2.
Proof.
  simpl. destruct (perform c w) as [r w1]. simpl.
  by destruct (run_calls cs w1).
Qed.

Lemma on_key_true (userId : string) (t : PaymentNotificationType) (c : Call) :
  on_key userId t c = true ->
  uuid_in (call_user c) = uuid_in userId /\ call_type c = t.
Proof.
  unfold on_key. rewrite andb_true_iff, !bool_decide_eq_true. tauto.
Qed.

Lemma effective_on_key (userId : string) (t : PaymentNotificationType) (c : Call) :
  on_key userId t c = true ->
  forall d, effective d (call_user c) (call_type c) = effective d userId t.
Proof.
  intros [Hu ->]%on_key_true d. by apply effective_same_uuid.
Qed.

Lemma on_key_false (userId u : string) (t : PaymentNotificationType) (c : Call) :
  on_key userId t c = false ->
  uuid_in userId = Some u ->
  (uuid_in (call_user c), type_value (call_type c)) <> (Some u, type_value t).
Proof.
  intros Hoff Hu [= Hc Ht%type_value_inj].
  assert (on_key userId t c = true) as Hon; [|congruence].
  unfold on_key. rewrite andb_true_iff, !bool_decide_eq_true.
  split_and!; [by eexists|congruence|done].
Qed.

(** What one call does to one key: either the call committed nothing, or it
    committed a change of its own key, with the audit entry of that key. *)
Lemma perform_on (userId : string) (t : PaymentNotificationType) (c : Call) (w : World) :
  let w' := (perform c w).2 in
  (db w' = db w) \/
  (exists e,
     audit_logs (db w') = audit_logs (db w) ++ [e] /\
     effective (db w) (call_user c) (call_type c) <> call_optedOut c /\
     effective (db w') (call_user c) (call_type c) = call_optedOut c /\
     transition e = (effective (db w) (call_user c) (call_type c), call_optedOut c) /\
     concerns userId t e = on_key userId t c /\
     audit_id e = uuid_source w (uuid_count w) /\
     (audit_id e ∉ audit_ids (db w)) /\
     (on_key userId t c = false -> effective (db w') userId t = effective (db w) userId t)).
Proof.
  intros w'. subst w'. unfold perform.
  destruct (update_state (call_user c) (call_type c) (call_optedOut c)
              (call_ip c) (call_user_agent c) w)
    as [Hdb|(Hne & (cu & Hcu & _) & Hfresh & at_ & Hdb)]; [by left|].
  right. rewrite Hdb.
  pose proof (effective_committed_change (call_user c) (call_type c) (call_optedOut c)
                (call_ip c) (call_user_agent c) at_ w (ex_intro _ cu Hcu)) as Hnew.
  revert Hnew. unfold committed_change. rewrite Hcu. intros Hnew.
  eexists. split; [reflexivity|].
  split_and!; try done.
  - unfold concerns, on_key, audit_entry. simpl. rewrite Hcu.
    f_equal; [|apply bool_decide_ext; split; [by intros ?%type_value_inj|by intros ->]].
    apply bool_decide_ext. split; [intros ->; split; [by eexists|done]|].
    by intros [_ ->].
  - intros Hoff. destruct (uuid_in userId) as [u|] eqn:Hu.
    + rewrite !(effective_uuid _ _ _ _ Hu). simpl.
      rewrite lookup_insert_ne; [done|].
      pose proof (on_key_false _ _ _ _ Hoff Hu) as Hkey. congruence.
    + by rewrite !(effective_no_uuid _ _ _ Hu).
Qed.

Lemma perform_returns (c : Call) (w : World) :
  succeeded (perform c w).1 = true ->
  effective (db (perform c w).2) (call_user c) (call_type c) = call_optedOut c.
Proof.
  unfold perform.
  destruct (updateUserNotificationPreference _ _ _ _ _ w).1 as [x|e] eqn:Hr; [|done].
  intros _. by apply update_returns in Hr as [_ ?].
Qed.

Lemma count_changes_length (userId : string) (t : PaymentNotificationType)
    (cur : bool) (cs : list Call) :
  length (requested_transitions userId t cur cs) = count_changes userId t cur cs.
Proof.
  revert cur. induction cs as [|c cs IH]; intros cur; simpl; [done|].
  destruct (on_key userId t c); [|done].
  destruct (eqb cur (call_optedOut c)); simpl; by rewrite IH.
Qed.

Lemma audit_of_app (userId : string) (t : PaymentNotificationType)
    (l1 l2 : list AuditLogEntry) :
  audit_of userId t (l1 ++ l2) = audit_of userId t l1 ++ audit_of userId t l2.
Proof. unfold audit_of. apply List.filter_app. Qed.

(** Whatever the calls do, the entries appended for a key record the
    changes of its effective value, one entry per change. *)
Lemma appended_changes (userId : string) (t : PaymentNotificationType)
    (cs : list Call) (w : World) :
  exists appended : list AuditLogEntry,
    audit_logs (db (run_calls cs w).2) = audit_logs (db w) ++ appended /\
    transition <$> audit_of userId t appended
      = changes (effective (db w) userId t) (effective_trace userId t cs w).
Proof.
  revert w. induction cs as [|c cs IH]; intros w.
  { exists []. simpl. by rewrite app_nil_r. }
  destruct (run_calls_cons c cs w) as [_ ->].
  destruct (IH (perform c w).2) as (appended & Hlogs & Htr).
  cbn [effective_trace changes].
  destruct (perform_on userId t c w)
    as [Hdb|(e & Hlog1 & Hne & Hnew & Htrans & Hcon & _ & _ & Hother)].
  - exists appended. rewrite Hdb in Hlogs, Htr |- *. split; [done|].
    by rewrite eqb_reflx.
  - exists (e :: appended).
    rewrite Hlogs, Hlog1, <- app_assoc. split; [done|].
    unfold audit_of in *. simpl.
    destruct (on_key userId t c) eqn:Hkey; rewrite Hcon.
    + pose proof (effective_on_key _ _ _ Hkey) as Heff.
      rewrite !Heff in Hnew, Hne, Htrans.
      rewrite fmap_cons, Htr, Hnew, Htrans.
      by rewrite (proj2 (eqb_false_iff _ _) Hne).
    + by rewrite Htr, (Hother eq_refl), eqb_reflx.
Qed.

(** When the calls all return, those changes are the ones asked for. *)
Lemma appended_requested (userId : string) (t : PaymentNotificationType)
    (cs : list Call) (w : World) :
  forallb succeeded (run_calls cs w).1 = true ->
  exists appended : list AuditLogEntry,
    audit_logs (db (run_calls cs w).2) = audit_logs (db w) ++ appended /\
    transition <$> audit_of userId t appended
      = requested_transitions userId t (effective (db w) userId t) cs.
Proof.
  intros Hok. revert w Hok.
  induction cs as [|c cs IH]; intros w Hok.
  { exists []. simpl. by rewrite app_nil_r. }
  destruct (run_calls_cons c cs w) as [Hrs Hws].
  rewrite Hrs in Hok. rewrite Hws. simpl in Hok.
  apply andb_true_iff in Hok as [Hc Hok].
  destruct (IH _ Hok) as (appended & Hlogs & Htr).
  pose proof (perform_returns c w Hc) as Hnew.
  destruct (perform_on userId t c w)
    as [Hdb|(e & Hlog1 & Hne & _ & Htrans & Hcon & _ & _ & Hother)].
  - (* nothing committed: the call asked for the value in effect *)
    exists appended. rewrite Hdb in Hlogs, Htr, Hnew. split; [done|].
    rewrite Htr. simpl.
    destruct (on_key userId t c) eqn:Hkey; [|done].
    rewrite (effective_on_key _ _ _ Hkey) in Hnew.
    by rewrite Hnew, eqb_reflx.
  - (* a change committed, with its audit entry *)
    exists (e :: appended).
    rewrite Hlogs, Hlog1, <- app_assoc. split; [done|].
    unfold audit_of in *. simpl.
    destruct (on_key userId t c) eqn:Hkey; rewrite Hcon.
    + pose proof (effective_on_key _ _ _ Hkey) as Heff.
      rewrite !Heff in Hnew, Hne, Htrans.
      rewrite fmap_cons, Htr, Hnew, Htrans.
      by rewrite (proj2 (eqb_false_iff _ _) Hne).
    + by rewrite Htr, (Hother eq_refl).
Qed.


(** C2. Over any sequence of calls to [updateUserNotificationPreference],
    the audit entries appended for a key are, in order, exactly the changes
    of its effective value, one entry [(old, new)] per change and none
    otherwise. When the calls all return, these are the transitions asked
    for: one entry for each call on the key whose value differs from the
    effective value just before it (no row counting as [false]), none for
    any other call, so the number of entries of the key grows by the number
    of such calls. *)
Theorem audit_entries_match_changes
    (userId : string) (t : PaymentNotificationType) (cs : list Call) (w : World) :
  let w' := (run_calls cs w).2 in
  exists appended : list AuditLogEntry,
    audit_logs (db w') = audit_logs (db w) ++ appended /\
    transition <$> audit_of userId t appended
      = changes (effective (db w) userId t) (effective_trace userId t cs w) /\
    (forallb succeeded (run_calls cs w).1 = true ->
     transition <$> audit_of userId t appended
       = requested_transitions userId t (effective (db w) userId t) cs /\
     length (audit_of userId t appended)
       = count_changes userId t (effective (db w) userId t) cs /\
     length (audit_of userId t (audit_logs (db w')))
       = (length (audit_of userId t (audit_logs (db w)))
          + count_changes userId t (effective (db w) userId t) cs)%nat).
Proof.
  intros w'. subst w'.
  destruct (appended_changes userId t cs w) as (appended & Hlogs & Hch).
  exists appended. split_and!; [done..|].
  intros Hok.
  destruct (appended_requested userId t cs w Hok) as (appended' & Hlogs' & Htr).
  rewrite Hlogs in Hlogs'. apply app_inv_head in Hlogs' as <-.
  assert (length (audit_of userId t appended)
            = count_changes userId t (effective (db w) userId t) cs) as Hlen.
  { by rewrite <- count_changes_length, <- Htr, length_fmap. }
  split_and!; [done..|].
  by rewrite Hlogs, audit_of_app, length_app, Hlen.
Qed.

Example example_calls_audit :
  (fun e => (audit_id e, notification_type e, transition e))
    <$> audit_logs (db (run_calls example_calls example_world).2)
  = [ ("f47ac10b-58cc-4372-a567-0e02b2c3d479", "payment_success", (false, true));
      ("0c9e4d2a-7b1f-4e6a-9c3d-2f8b5a6e7d10", "payment_success", (true, false));
      ("7d444840-9dc0-41d1-b245-5ffffd3c1f2a", "payment_refund", (false, true)) ].
Proof. vm_compute. reflexivity. Qed.

Lemma audit_entries_match_changes_witness :
  length (audit_of alice PaymentSuccess
            (audit_logs (db (run_calls example_calls example_world).2)))
    = (length (audit_of alice PaymentSuccess (audit_logs (db example_world)))
       + count_changes alice PaymentSuccess
           (effective (db example_world) alice PaymentSuccess) example_calls)%nat.
Proof.
  destruct (audit_entries_match_changes alice PaymentSuccess example_calls example_world)
    as (appended & _ & _ & Hreturned).
  apply Hreturned. vm_compute. reflexivity.
Defined.

Example example_calls_changes :
  count_changes alice PaymentSuccess
    (effective (db example_world) alice PaymentSuccess) example_calls = 2%nat.
Proof. vm_compute. reflexivity. Qed.

Lemma last_requested_effective (userId : string) (t : PaymentNotificationType)
    (cs : list Call) (w : World) :
  forallb succeeded (run_calls cs w).1 = true ->
  effective (db (run_calls cs w).2) userId t
    = last_requested userId t (effective (db w) userId t) cs.
Proof.
  revert w. induction cs as [|c cs IH]; intros w Hok; [done|].
  destruct (run_calls_cons c cs w) as [Hrs Hws].
  rewrite Hrs in Hok. rewrite Hws. simpl in Hok.
  apply andb_true_iff in Hok as [Hc Hok].
  rewrite (IH _ Hok). simpl.
  pose proof (perform_returns c w Hc) as Hnew.
  destruct (on_key userId t c) eqn:Hkey.
  - rewrite (effective_on_key _ _ _ Hkey) in Hnew. by rewrite Hnew.
  - destruct (perform_on userId t c w) as [->|(e & _ & _ & _ & _ & _ & _ & _ & Hother)];
      [done|].
    by rewrite (Hother Hkey).
Qed.

(** C6. [shouldSendNotification] is a pure read: it changes no table. When
    it returns, it returns [false] exactly when the user the id denotes has
    a row for the type with [opted_out = true], hence [true] when there is
    no row or the row holds [false]; with reliable storage it returns for
    every id that is the text of a UUID, and an id that is not is rejected
    by the [SELECT] (22P02). After any sequence of calls to the write path
    that all returned, it returns [false] exactly when the value the most
    recent call on the key asked for is [true] (the value in effect before
    the sequence, if no call was on the key). *)
Theorem shouldSendNotification_gate
    (userId : string) (t : PaymentNotificationType) (cs : list Call) (w0 : World) :
  let w := (run_calls cs w0).2 in
  let r := (shouldSendNotification userId t w).1 in
  let w' := (shouldSendNotification userId t w).2 in
  db w' = db w /\
  (forall b, r = Return b ->
     exists u, uuid_in userId = Some u /\
     (b = false <->
      notification_preferences (db w) !! (u, type_value t) = Some true) /\
     (b = true <->
      notification_preferences (db w) !! (u, type_value t) = None \/
      notification_preferences (db w) !! (u, type_value t) = Some false)) /\
  (reliable w -> is_Some (uuid_in userId) -> exists b, r = Return b) /\
  (uuid_in userId = None ->
   r = Throw InvalidTextRepresentation \/ (r = Throw ConnectionFailure /\ ~ reliable w)) /\
  (forallb succeeded (run_calls cs w0).1 = true ->
   forall b, r = Return b ->
     (b = false <-> last_requested userId t (effective (db w0) userId t) cs = true)).
Proof.
  intros w r w'.
  destruct (shouldSendNotification_ensures userId t w) as [Hdb Hr].
  fold r w' in Hdb, Hr.
  assert (forall b, r = Return b ->
            b = negb (effective (db w) userId t) /\ is_Some (uuid_in userId)) as Hval.
  { intros b Hb. destruct Hr as [[Hr ?]|[[Hr _]|[Hr _]]]; [|congruence..].
    split; [congruence|done]. }
  split_and!; [done| | | |].
  - intros b [-> [u Hu]]%Hval. exists u. split; [done|].
    rewrite (effective_uuid _ _ _ _ Hu).
    destruct (notification_preferences (db w) !! (u, type_value t)) as [[]|];
      simpl; intuition congruence.
  - intros Hrel [u Hu]. destruct Hr as [[Hr _]|[[_ ?]|[_ ?]]]; [eauto|done|congruence].
  - intros Hnone. destruct Hr as [[_ [u Hu]]|[?|[? _]]]; [congruence|auto..].
  - intros Hok b [-> _]%Hval. subst w.
    rewrite (last_requested_effective userId t cs w0 Hok).
    by destruct (last_requested _ _ _ _).
Qed.

(** After the example calls, asked under another spelling of the id of
    [alice]. *)
Lemma shouldSendNotification_gate_witness :
  (exists b, (shouldSendNotification "{3F2B8C1E58CC4372A5670E02B2C3D479}" PaymentRefund
                (run_calls example_calls example_world).2).1 = Return b) /\
  (forall b,
     (shouldSendNotification alice PaymentRefund
        (run_calls example_calls example_world).2).1 = Return b ->
     (b = false <->
      last_requested alice PaymentRefund
        (effective (db example_world) alice PaymentRefund) example_calls = true)).
Proof.
  split.
  - apply (shouldSendNotification_gate "{3F2B8C1E58CC4372A5670E02B2C3D479}"
             PaymentRefund example_calls example_world).
    + vm_compute. constructor.
    + vm_compute. by eexists.
  - apply (shouldSendNotification_gate alice PaymentRefund example_calls example_world).
    vm_compute. reflexivity.
Defined.

Example gate_after_example_calls :
  (shouldSendNotification alice PaymentRefund
     (run_calls example_calls example_world).2).1 = Return false /\
  (shouldSendNotification alice PaymentSuccess
     (run_calls example_calls example_world).2).1 = Return true.
Proof. split; vm_compute; reflexivity. Qed.

(** The gate reads the row of the user the id denotes, whatever the
    spelling, and rejects an id that denotes none. *)
Example gate_under_another_spelling :
  (shouldSendNotification "3F2B8C1E-58CC-4372-A567-0E02B2C3D479" PaymentRefund
     (run_calls example_calls example_world).2).1 = Return false /\
  (shouldSendNotification "user-123" PaymentRefund
     (run_calls example_calls example_world).2).1 = Throw InvalidTextRepresentation.
Proof. split; vm_compute; reflexivity. Qed.

(** ** Audit identifiers *)

Lemma perform_audit_ids (c : Call) (w : World) :
  audit_ids (db (perform c w).2) = audit_ids (db w) \/
  (audit_ids (db (perform c w).2) = audit_ids (db w) ++ [uuid_source w (uuid_count w)] /\
   uuid_source w (uuid_count w) ∉ audit_ids (db w)).
Proof.
  destruct (perform_on (call_user c) (call_type c) c w)
    as [->|(e & Hlog & _ & _ & _ & _ & Hid & Hfresh & _)]; [by left|].
  right. unfold audit_ids in *. rewrite Hlog, fmap_app. simpl.
  rewrite <- Hid. done.
Qed.

(** C8, as the code has it. Every audit entry is appended with the
    identifier [uuidv4()] returned for it, and the identifiers of the log
    stay pairwise distinct over any sequence of calls: the primary key
    rejects a duplicate, and the change is rolled back with it. *)
Theorem audit_ids_unique (cs : list Call) (w : World) :
  NoDup (audit_ids (db w)) ->
  NoDup (audit_ids (db (run_calls cs w).2)) /\
  (forall c : Call,
     audit_ids (db (perform c w).2) = audit_ids (db w) \/
     audit_ids (db (perform c w).2)
       = audit_ids (db w) ++ [uuid_source w (uuid_count w)]).
Proof.
  intros Hnd. split.
  - revert w Hnd. induction cs as [|c cs IH]; intros w Hnd; [done|].
    destruct (run_calls_cons c cs w) as [_ ->]. apply IH.
    destruct (perform_audit_ids c w) as [->|[-> Hfresh]]; [done|].
    apply NoDup_app. split; [done|]. split; [|by apply NoDup_singleton].
    by intros x Hx ->%list_elem_of_singleton.
  - intros c. destruct (perform_audit_ids c w) as [?|[? _]]; auto.
Qed.

Lemma audit_ids_unique_witness :
  NoDup (audit_ids (db (run_calls example_calls example_world).2)).
Proof.
  apply (audit_ids_unique example_calls example_world).
  vm_compute. constructor.
Defined.

(** C8, as the specification states it, fails: the identifiers are the
    random values of [uuidv4()], and here the entry appended second has the
    smaller one. *)
Lemma audit_ids_not_generation_ordered :
  ~ generation_ordered (audit_logs (db (run_calls example_calls example_world).2)).
Proof.
  intros Hord.
  destruct (audit_logs (db (run_calls example_calls example_world).2))
    as [|e1 [|e2 l]] eqn:Hlogs; [by vm_compute in Hlogs..|].
  specialize (Hord 0%nat 1%nat e1 e2 eq_refl eq_refl ltac:(lia)).
  vm_compute in Hlogs. injection Hlogs as <- <- _.
  vm_compute in Hord. discriminate Hord.
Qed.

(** ** The scenarios of the specification, run on the model *)

(** Scenario A: a fresh user sees all defaults. *)
Example scenario_A :
  (getUserNotificationPreferences alice example_world).1
  = Return [ {| type := PaymentSuccess; optedOut := false |};
             {| type := PaymentFailure; optedOut := false |};
             {| type := PaymentRefund; optedOut := false |} ].
Proof. vm_compute. reflexivity. Qed.

(** Scenario B: opting out of one type returns the new view and logs
    [(false, true)]. *)
Example scenario_B :
  let '(r, w) := set_preference alice PaymentSuccess true example_world in
  r = Return [ {| type := PaymentSuccess; optedOut := true |};
               {| type := PaymentFailure; optedOut := false |};
               {| type := PaymentRefund; optedOut := false |} ] /\
  transition <$> audit_logs (db w) = [(false, true)].
Proof. vm_compute. split; reflexivity. Qed.

(** Scenario C and D: the repeated call logs nothing, the opposite one logs
    [(true, false)]. *)
Example scenario_C_D :
  let w1 := (set_preference alice PaymentSuccess true example_world).2 in
  let w2 := (set_preference alice PaymentSuccess true w1).2 in
  let w3 := (set_preference alice PaymentSuccess false w2).2 in
  transition <$> audit_logs (db w2) = [(false, true)] /\
  transition <$> audit_logs (db w3) = [(false, true); (true, false)] /\
  (getUserNotificationPreferences alice w3).1 = Return (view (db example_world) alice).
Proof. vm_compute. split_and!; reflexivity. Qed.

(** Scenario E: an unknown category is answered with 400 and changes
    nothing. *)
Example scenario_E :
  updateNotificationPreferenceHandler
    (example_request (JsString "unknown_category") (JsBoolean true)) example_world
  = ({| status := 400;
        json := Message "Malformed input: Invalid notification type or optedOut value." |},
     example_world).
Proof. reflexivity. Qed.

(** A failure between the upsert and the audit insert: the fifth round trip
    (connect, BEGIN, SELECT, upsert, audit insert) fails, the call throws
    and neither table has changed. *)
Example failure_after_upsert :
  let w := {| db := db example_world; session := None;
              faults := [false; false; false; false; true];
              uuid_source := example_uuids; uuid_count := 0; clock := 0;
              error_page := error_page example_world |} in
  (set_preference alice PaymentSuccess true w).1 = Throw ConnectionFailure /\
  db (set_preference alice PaymentSuccess true w).2 = db example_world.
Proof. vm_compute. split; reflexivity. Qed.

(** A failure after the commit: the read that builds the answer fails, the
    call throws, and the change is committed with its audit entry. *)
Example failure_after_commit :
  let w := {| db := db example_world; session := None;
              faults := [false; false; false; false; false; false; true];
              uuid_source := example_uuids; uuid_count := 0; clock := 0;
              error_page := error_page example_world |} in
  (set_preference alice PaymentSuccess true w).1 = Throw ConnectionFailure /\
  effective (db (set_preference alice PaymentSuccess true w).2) alice PaymentSuccess = true /\
  transition <$> audit_logs (db (set_preference alice PaymentSuccess true w).2)
    = [(false, true)].
Proof. vm_compute. split_and!; reflexivity. Qed.

(** * Further properties of the services *)

Lemma run_calls_invariant (P : Database -> Prop) :
  (forall c w, P (db w) -> P (db (perform c w).2)) ->
  forall cs w, P (db w) -> P (db (run_calls cs w).2).
Proof.
  intros Hstep cs. induction cs as [|c cs IH]; intros w HP; [done|].
  destruct (run_calls_cons c cs w) as [_ ->]. by apply IH, Hstep.
Qed.

Lemma perform_preserves_fk (c : Call) (w : World) :
  fk_consistent (db w) -> fk_consistent (db (perform c w).2).
Proof.
  intros Hfk. unfold perform.
  destruct (update_state (call_user c) (call_type c) (call_optedOut c)
              (call_ip c) (call_user_agent c) w)
    as [->|(_ & (cu & Hcu & Hins) & _ & at_ & ->)]; [done|].
  intros u ty. unfold committed_change. rewrite Hcu. simpl.
  destruct (decide ((cu, type_value (call_type c)) = (u, ty))) as [[= <- <-]|Hne].
  - intros _. destruct Hins as [Hrow|Huser]; [by apply Hfk in Hrow|done].
  - rewrite lookup_insert_ne by done. apply Hfk.
Qed.

(** X1. The write path never stores a preference row for a user that is not in
    [users]: over any sequence of calls, whatever their outcome, the
    foreign key of [notification_preferences] keeps holding. *)
Theorem write_path_keeps_foreign_key (cs : list Call) (w : World) :
  fk_consistent (db w) -> fk_consistent (db (run_calls cs w).2).
Proof. apply (run_calls_invariant fk_consistent), perform_preserves_fk. Qed.

Lemma write_path_keeps_foreign_key_witness :
  fk_consistent (db (run_calls example_calls example_world).2).
Proof.
  apply (write_path_keeps_foreign_key example_calls example_world).
  intros u ty [b Hb]. vm_compute in Hb. discriminate.
Defined.

Lemma replay_snoc (cur : bool) (ts : list (bool * bool)) (reached new : bool) :
  replay cur ts = Some reached -> reached <> new ->
  replay cur (ts ++ [(reached, new)]) = Some new.
Proof.
  revert cur. induction ts as [|[o n] ts IH]; intros cur Hts Hne; simpl in *.
  - injection Hts as ->. rewrite eqb_reflx. simpl.
    by rewrite (proj2 (eqb_false_iff _ _) Hne).
  - destruct (eqb o cur && negb (eqb o n)); [by apply IH|done].
Qed.

Lemma perform_keeps_explained (c : Call) (w : World) :
  audit_explains (db w) -> audit_explains (db (perform c w).2).
Proof.
  intros Hex u t.
  destruct (perform_on u t c w)
    as [->|(e & Hlog & Hne & Hnew & Htrans & Hcon & _ & _ & Hother)]; [done|].
  rewrite Hlog, audit_of_app. unfold audit_of at 2. simpl. rewrite Hcon.
  destruct (on_key u t c) eqn:Hkey.
  - pose proof (effective_on_key _ _ _ Hkey) as Heff.
    rewrite !Heff in Hnew, Hne, Htrans.
    rewrite fmap_app. simpl. rewrite Htrans, Hnew.
    by apply replay_snoc.
  - rewrite app_nil_r, (Hother eq_refl). apply Hex.
Qed.

(** X2. The audit log stays a complete history of the preference table: if,
    for every key, the entries of the key replay from the default to the
    stored value, they still do after any sequence of calls, whatever
    their outcome. In particular this holds from an empty log over a table
    without rows. *)
Theorem audit_log_explains_preferences (cs : list Call) (w : World) :
  audit_explains (db w) -> audit_explains (db (run_calls cs w).2).
Proof. apply (run_calls_invariant audit_explains), perform_keeps_explained. Qed.

Lemma audit_log_explains_preferences_witness :
  audit_explains (db (run_calls example_calls example_world).2).
Proof.
  apply (audit_log_explains_preferences example_calls example_world).
  intros u t. unfold effective. simpl.
  destruct (uuid_in u); [rewrite lookup_empty|]; reflexivity.
Defined.

(** X3. Repeating a call never logs its change twice: over two calls in a row
    with the same user, type and value, whatever either of them returns or
    throws, at most one audit entry is appended in total, and if the
    second returns the value asked for is in effect. *)
Theorem retry_logs_at_most_once
    (userId : string) (t : PaymentNotificationType) (v : bool)
    (ip1 ua1 ip2 ua2 : option string) (w : World) :
  let w1 := (updateUserNotificationPreference userId t v ip1 ua1 w).2 in
  let r2 := (updateUserNotificationPreference userId t v ip2 ua2 w1).1 in
  let w2 := (updateUserNotificationPreference userId t v ip2 ua2 w1).2 in
  (exists appended : list AuditLogEntry,
     audit_logs (db w2) = audit_logs (db w) ++ appended /\ (length appended <= 1)%nat) /\
  (succeeded r2 = true -> effective (db w2) userId t = v).
Proof.
  intros w1 r2 w2. split.
  - destruct (update_state userId t v ip1 ua1 w)
      as [Hdb1|(_ & (u & Hu & _) & _ & at1 & Hdb1)]; fold w1 in Hdb1.
    + destruct (update_state userId t v ip2 ua2 w1)
        as [Hdb2|(_ & (u & Hu & _) & _ & at2 & Hdb2)]; fold w2 in Hdb2; rewrite Hdb2.
      * exists []. rewrite Hdb1, app_nil_r. auto.
      * eexists [_]. unfold committed_change. rewrite Hu. simpl. rewrite Hdb1. auto.
    + assert (db w2 = db w1) as ->.
      { apply update_same_value. rewrite Hdb1. apply effective_committed_change.
        by eexists. }
      rewrite Hdb1. eexists [_]. unfold committed_change. rewrite Hu. simpl. auto.
  - subst r2 w2.
    destruct (updateUserNotificationPreference userId t v ip2 ua2 w1).1 as [x|e] eqn:Hr;
      [|done].
    intros _. by apply update_returns in Hr as [_ ?].
Qed.

Lemma retry_logs_at_most_once_witness :
  effective
    (db (updateUserNotificationPreference alice PaymentFailure true None None
           (updateUserNotificationPreference alice PaymentFailure true None None
              example_world).2).2) alice PaymentFailure = true.
Proof.
  apply (retry_logs_at_most_once alice PaymentFailure true None None None None
           example_world).
  vm_compute. reflexivity.
Defined.

(** X4. The gate and the view agree: when the read path returns a view and the
    gate returns an answer over the same committed state, the entry of the
    type in the view is opted out exactly when the gate says not to
    send. *)
Theorem gate_agrees_with_view
    (userId : string) (t : PaymentNotificationType) (w1 w2 : World)
    (x : list NotificationPreference) (b : bool) :
  db w2 = db w1 ->
  (getUserNotificationPreferences userId w1).1 = Return x ->
  (shouldSendNotification userId t w2).1 = Return b ->
  {| type := t; optedOut := negb b |} ∈ x.
Proof.
  intros Hdb Hx Hb.
  destruct (getUserNotificationPreferences_ensures userId w1)
    as [_ [[Hr _]|[[Hr _]|[Hr _]]]]; [|congruence..].
  destruct (shouldSendNotification_ensures userId t w2)
    as [_ [[Hg _]|[[Hg _]|[Hg _]]]]; [|congruence..].
  assert (x = view (db w1) userId) as -> by congruence.
  assert (b = negb (effective (db w2) userId t)) as -> by congruence.
  rewrite negb_involutive, Hdb. apply view_has_entry.
Qed.

Lemma gate_agrees_with_view_witness :
  {| type := PaymentRefund; optedOut := negb false |}
    ∈ [ {| type := PaymentSuccess; optedOut := false |};
        {| type := PaymentFailure; optedOut := false |};
        {| type := PaymentRefund; optedOut := true |} ].
Proof.
  apply (gate_agrees_with_view alice PaymentRefund
           (run_calls example_calls example_world).2
           (run_calls example_calls example_world).2).
  - reflexivity.
  - vm_compute. reflexivity.
  - vm_compute. reflexivity.
Defined.

(** X5. A collision of audit identifiers undoes the upsert: when [uuidv4()]
    returns an identifier the log already has and the call would change
    the value, nothing is committed (the upserted row is rolled back with
    the rejected insert) and the call throws, the unique violation 23505
    whenever no round trip fails and the row could be written. *)
Theorem update_id_collision_rolls_back
    (userId : string) (t : PaymentNotificationType) (v : bool)
    (ipAddress userAgent : option string) (w : World) :
  uuid_source w (uuid_count w) ∈ audit_ids (db w) ->
  effective (db w) userId t <> v ->
  let r := (updateUserNotificationPreference userId t v ipAddress userAgent w).1 in
  let w' := (updateUserNotificationPreference userId t v ipAddress userAgent w).2 in
  db w' = db w /\
  (exists e, r = Throw e) /\
  (reliable w -> insertable userId t (db w) -> r = Throw UniqueViolation).
Proof.
  intros Htaken Hne r w'.
  assert (db w' = db w) as Hdb.
  { destruct (update_state userId t v ipAddress userAgent w) as [?|(_ & _ & Hfresh & _)];
      [done|]. by destruct Hfresh. }
  split; [done|]. subst r.
  destruct (updateUserNotificationPreference userId t v ipAddress userAgent w).1
    as [x|e] eqn:Hr.
  - apply update_returns in Hr as [_ Heff]. fold w' in Heff. rewrite Hdb in Heff. done.
  - split; [by exists e|]. intros Hrel Hins. f_equal.
    apply update_throws in Hr as [[_ ?]|[(_ & _ & ? & _)|[(? & _)|[_ Hnone]]]];
      [done..|].
    by apply not_insertable_no_uuid with (t := t) (d := db w) in Hnone.
Qed.

Lemma update_id_collision_rolls_back_witness :
  (updateUserNotificationPreference alice PaymentFailure true None None collision_world).1
    = Throw UniqueViolation.
Proof.
  apply (update_id_collision_rolls_back alice PaymentFailure true None None
           collision_world).
  - vm_compute. set_solver.
  - vm_compute. discriminate.
  - constructor.
  - exists alice. split; [by vm_compute|]. right. vm_compute. eauto.
Defined.

(** * The middleware and the routes *)

(** ** Trimming *)

Lemma trim_start_clean (s : string) : clean_start (trim_start s).
Proof.
  induction s as [|c s IH]; simpl; [done|].
  by destruct (js_white_space c) eqn:Hc.
Qed.

Lemma trim_start_fixed (s : string) : clean_start s -> trim_start s = s.
Proof. destruct s as [|c s]; simpl; [done|]. by intros ->. Qed.

Lemma trim_end_clean_start (s : string) : clean_start s -> clean_start (trim_end s).
Proof.
  destruct s as [|c s]; simpl; [done|]. intros Hc.
  destruct (trim_end s); simpl; by rewrite ?Hc.
Qed.

Lemma trim_end_fixed (s : string) : trim_end (trim_end s) = trim_end s.
Proof.
  induction s as [|c s IH]; simpl; [done|].
  destruct (trim_end s) as [|c' kept] eqn:Hk.
  - destruct (js_white_space c) eqn:Hc; simpl; [done|]. by rewrite Hc.
  - change (trim_end (String c (String c' kept))) with
      (match trim_end (String c' kept) with
       | EmptyString => if js_white_space c then EmptyString else String c EmptyString
       | k => String c k
       end).
    by rewrite IH.
Qed.

Lemma trim_fixed (s : string) :
  clean_start (trim s) /\ trim_start (trim s) = trim s /\
  trim_end (trim s) = trim s /\ trim (trim s) = trim s.
Proof.
  assert (clean_start (trim s)) as Hc
    by apply trim_end_clean_start, trim_start_clean.
  split_and!; [done|by apply trim_start_fixed|apply trim_end_fixed|].
  unfold trim at 1. rewrite (trim_start_fixed _ Hc). apply trim_end_fixed.
Qed.

(** ** Bearer tokens *)

Lemma prefix_split (p h : string) :
  String.prefix p h = true -> h = p +:+ substring_from (String.length p) h.
Proof.
  revert h. induction p as [|a p IH]; intros h; [done|].
  destruct h as [|b h]; simpl; [done|].
  destruct (ascii_dec a b) as [->|]; [|done].
  intros Hp.
  change (String b h = String b (p +:+ substring_from (String.length p) h)).
  f_equal. by apply IH.
Qed.

Lemma prefix_append (p rest : string) : String.prefix p (p +:+ rest) = true.
Proof.
  induction p as [|a p IH]; [by destruct rest|].
  change (String a p +:+ rest) with (String a (p +:+ rest)). simpl.
  by destruct (ascii_dec a a).
Qed.

Lemma substring_from_append (p rest : string) :
  substring_from (String.length p) (p +:+ rest) = rest.
Proof. induction p as [|a p IH]; [done|]. exact IH. Qed.

Lemma isValidUserId_nonempty (s : string) : isValidUserId s = negb (bool_decide (s = "")).
Proof. by destruct s. Qed.

Lemma authMiddleware_bearer (req : HttpRequest) (rest : string) :
  req_authorization req = Some ("Bearer " +:+ rest) ->
  authMiddleware req =
    if bool_decide (trim rest = "")
    then Unauthorized
           {| status := 401; json := Message "Unauthorized: Invalid user token" |}
           (logUnauthorizedAttempt req (Some (trim rest)) "Invalid user token")
    else Authenticated (trim rest).
Proof.
  intros Hh. unfold authMiddleware. rewrite Hh.
  rewrite (bool_decide_eq_false_2 ("Bearer " +:+ rest = "")) by done.
  rewrite prefix_append, substring_from_append. cbv zeta iota beta.
  rewrite isValidUserId_nonempty.
  by destruct (bool_decide (trim rest = "")).
Qed.

Lemma authMiddleware_inv (req : HttpRequest) (u : string) :
  authMiddleware req = Authenticated u ->
  exists rest, req_authorization req = Some ("Bearer " +:+ rest) /\
               trim rest = u /\ u <> "".
Proof.
  unfold authMiddleware.
  destruct (req_authorization req) as [h|]; [|done].
  destruct (bool_decide (h = "") || negb (String.prefix "Bearer " h)) eqn:Hhead; [done|].
  apply orb_false_iff in Hhead as [_ Hp%negb_false_iff].
  apply prefix_split in Hp.
  destruct (bool_decide (_ = "") || _) eqn:Htok; [done|].
  intros [= <-].
  apply orb_false_iff in Htok as [Hne%bool_decide_eq_false _].
  eexists. split_and!; [by f_equal|done..].
Qed.

(** X6. [authMiddleware] lets a request through exactly when its
    [Authorization] header is [Bearer ] followed by text that is not only
    white space; the user it attaches is that text, trimmed. *)
Theorem authMiddleware_accepts_bearer (req : HttpRequest) (u : string) :
  authMiddleware req = Authenticated u <->
  exists rest, req_authorization req = Some ("Bearer " +:+ rest) /\
               trim rest = u /\ u <> "".
Proof.
  split; [apply authMiddleware_inv|].
  intros (rest & Hh & <- & Hne).
  rewrite (authMiddleware_bearer req rest Hh).
  by rewrite bool_decide_eq_false_2.
Qed.

Lemma authMiddleware_accepts_bearer_witness :
  authMiddleware (example_http_request (Some ("Bearer   " +:+ alice +:+ "  ")) JsNull)
    = Authenticated alice.
Proof.
  apply (authMiddleware_accepts_bearer
           (example_http_request (Some ("Bearer   " +:+ alice +:+ "  ")) JsNull) alice).
  eexists. split; [reflexivity|]. split; [vm_compute; reflexivity|discriminate].
Defined.

(** X7. The user id [authMiddleware] attaches is normalised: it is not empty,
    it neither starts nor ends with white space, and sent again as a
    bearer token it authenticates as itself. *)
Theorem authenticated_id_is_normalised (req : HttpRequest) (u : string) :
  authMiddleware req = Authenticated u ->
  u <> "" /\ trim_start u = u /\ trim_end u = u /\
  (forall req', req_authorization req' = Some ("Bearer " +:+ u) ->
                authMiddleware req' = Authenticated u).
Proof.
  intros (rest & _ & <- & Hne)%authMiddleware_inv.
  destruct (trim_fixed rest) as (_ & Hs & He & Htrim).
  split_and!; [done..|].
  intros req' Hh. rewrite (authMiddleware_bearer req' _ Hh), Htrim.
  by rewrite bool_decide_eq_false_2.
Qed.

Lemma authenticated_id_is_normalised_witness :
  trim_end alice = alice.
Proof.
  apply (authenticated_id_is_normalised
           (example_http_request (Some ("Bearer   " +:+ alice +:+ "  ")) JsNull) alice).
  vm_compute. reflexivity.
Defined.

(** ** The routes *)

Lemma authMiddleware_unauthorized (req : HttpRequest) (response : Response)
    (warning : string) :
  authMiddleware req = Unauthorized response warning ->
  status response = 401%nat /\ exists m, json response = Message m.
Proof.
  unfold authMiddleware.
  destruct (req_authorization req) as [h|]; [|intros [= <- _]; eauto].
  destruct (bool_decide (h = "") || negb (String.prefix "Bearer " h));
    [intros [= <- _]; eauto|].
  destruct (bool_decide (_ = "") || _); [intros [= <- _]; eauto|done].
Qed.

Lemma authMiddleware_same_header (req req' : HttpRequest) (u : string) :
  req_authorization req' = req_authorization req ->
  authMiddleware req = Authenticated u -> authMiddleware req' = Authenticated u.
Proof.
  intros Hsame (rest & Hh & <- & Hne)%authMiddleware_inv.
  rewrite Hh in Hsame. rewrite (authMiddleware_bearer req' rest Hsame).
  by rewrite bool_decide_eq_false_2.
Qed.

(** The controller of the write route throws on a body it cannot read the
    members off, answers 400 at once, or calls the service with the
    validated body. *)
Lemma handler_cases (req : Request) (w : World) :
  ((body req = JsUndefined \/ body req = JsNull) /\
   updateNotificationPreferenceHandler req w = (expressErrorHandler TypeError w, w)) \/
  (body req <> JsUndefined /\ body req <> JsNull /\
   updateNotificationPreferenceHandler req w = (malformed_input, w)) \/
  exists t v,
    body req <> JsUndefined /\ body req <> JsNull /\
    js_get (body req) "type" = JsString (type_value t) /\
    js_get (body req) "optedOut" = JsBoolean v /\
    updateNotificationPreferenceHandler req w =
      match updateUserNotificationPreference
              (id (user req)) t v (ip req) (header_user_agent req) w with
      | (Return updatedPreferences, w1) =>
          ({| status := 200; json := Updated true updatedPreferences |}, w1)
      | (Throw err, w1) => (expressErrorHandler (StorageError err) w1, w1)
      end.
Proof.
  assert (body req = JsUndefined \/ body req = JsNull \/
          (body req <> JsUndefined /\ body req <> JsNull)) as [Hb|[Hb|[Hundef Hnull]]].
  { destruct (body req); auto; right; right; split; discriminate. }
  1, 2: left; (split; [auto|]); unfold updateNotificationPreferenceHandler;
    by rewrite Hb.
  right.
  destruct (js_not (js_get (body req) "type")
            || negb (js_includes_type (js_get (body req) "type"))
            || js_not_boolean (js_get (body req) "optedOut")) eqn:Hcheck.
  - left. split_and!; [done..|]. unfold updateNotificationPreferenceHandler.
    rewrite Hcheck. by destruct (body req).
  - right. apply handler_validates in Hcheck as (t & v & Ht & Hv).
    exists t, v. split_and!; [done..|]. by apply handler_calls_service.
Qed.

Lemma route_PUT_cases (req : HttpRequest) (w : World) : PutCase req w.
Proof.
  destruct (authMiddleware req) as [response warning|u] eqn:Hauth.
  - destruct (authMiddleware_unauthorized _ _ _ Hauth) as [Hst _].
    eapply PutUnauthorized; [done..|]. unfold route_PUT. by rewrite Hauth.
  - destruct (handler_cases (attach_user u req) w)
      as [[Hbody H500]|[(Hundef & Hnull & H400)|(t & v & Hundef & Hnull & Ht & Hv & Hcall)]].
    + eapply PutNoBody; [done..|]. unfold route_PUT. by rewrite Hauth, H500.
    + eapply PutMalformed; [done..|]. unfold route_PUT. by rewrite Hauth, H400.
    + eapply (PutService _ _ u t v); [done..|].
      unfold route_PUT. rewrite Hauth, Hcall. simpl.
      by destruct (updateUserNotificationPreference _ _ _ _ _ w) as [[x|e] w1].
Qed.

(** The statuses of [errorMiddleware], for the errors that reach it. *)
Lemma errorMiddleware_status (e : PgError) :
  status (errorMiddleware e) = match e with UniqueViolation => 409%nat | _ => 500%nat end.
Proof. by destruct e. Qed.

(** X8. A request that does not authenticate never reaches the storage: both
    routes answer 401 exactly when [authMiddleware] stops the request, and
    then hand the world back untouched, no round trip made. *)
Theorem unauthenticated_requests_touch_nothing (req : HttpRequest) (w : World) :
  (http_status (route_PUT req w).1 = 401%nat <->
   forall u, authMiddleware req <> Authenticated u) /\
  (http_status (route_GET req w).1 = 401%nat <->
   forall u, authMiddleware req <> Authenticated u) /\
  ((forall u, authMiddleware req <> Authenticated u) ->
   (route_PUT req w).2 = w /\ (route_GET req w).2 = w).
Proof.
  split_and!.
  - destruct (route_PUT_cases req w)
      as [resp warn Hauth Hst Hput|u Hauth _ Hput|u Hauth _ _ Hput
         |u t v Hauth _ _ _ _ Hput];
      rewrite Hput.
    + simpl. split; [congruence|done].
    + simpl. split; [done|]. intros Hno. by destruct (Hno u).
    + simpl. split; [done|]. intros Hno. by destruct (Hno u).
    + simpl. split; [|intros Hno; by destruct (Hno u)].
      by destruct (updateUserNotificationPreference _ _ _ _ _ w).1 as [x|e].
  - unfold route_GET.
    destruct (authMiddleware req) as [resp warn|u] eqn:Hauth.
    + destruct (authMiddleware_unauthorized _ _ _ Hauth) as [Hst _]. simpl.
      split; [congruence|done].
    + split; [|intros Hno; by destruct (Hno u)].
      unfold getNotificationPreferencesHandler.
      by destruct (getUserNotificationPreferences _ w) as [[x|e] w1].
  - intros Hno. unfold route_PUT, route_GET.
    destruct (authMiddleware req) as [resp warn|u]; [done|]. by destruct (Hno u).
Qed.

Lemma unauthenticated_requests_touch_nothing_witness :
  (route_PUT (example_http_request (Some "Basic dXNlcjpwYXNz") JsNull) example_world).2
    = example_world.
Proof.
  apply (unauthenticated_requests_touch_nothing
           (example_http_request (Some "Basic dXNlcjpwYXNz") JsNull) example_world).
  intros u. vm_compute. discriminate.
Defined.

(** X9. A write request only ever touches the data of the user its token
    denotes: the [users] table and the rows of every other user stay as
    they were, at most one audit entry is appended, and that entry carries
    the UUID value the token denotes, the address of the request and its
    user agent ([null] for a missing or empty header). Users are told apart
    as the storage does, by the value an id denotes. *)
Theorem route_PUT_confined_to_user (req : HttpRequest) (w : World) :
  let w' := (route_PUT req w).2 in
  users (db w') = users (db w) /\
  (forall u' ty,
     (forall tok, authMiddleware req = Authenticated tok -> uuid_in tok <> Some u') ->
     notification_preferences (db w') !! (u', ty)
       = notification_preferences (db w) !! (u', ty)) /\
  (exists appended : list AuditLogEntry,
     audit_logs (db w') = audit_logs (db w) ++ appended /\
     (length appended <= 1)%nat /\
     (forall e, e ∈ appended ->
        (exists tok, authMiddleware req = Authenticated tok /\
                     uuid_in tok = Some (user_id e)) /\
        ip_address e = req_ip req /\
        user_agent e = match req_user_agent req with
                       | Some "" => None
                       | agent => agent
                       end)).
Proof.
  intros w'. subst w'.
  assert (forall d : Database,
            users d = users d /\
            (forall u' ty,
               (forall tok, authMiddleware req = Authenticated tok ->
                            uuid_in tok <> Some u') ->
               notification_preferences d !! (u', ty) = notification_preferences d !! (u', ty)) /\
            (exists appended : list AuditLogEntry,
               audit_logs d = audit_logs d ++ appended /\ (length appended <= 1)%nat /\
               (forall e, e ∈ appended ->
                  (exists tok, authMiddleware req = Authenticated tok /\
                               uuid_in tok = Some (user_id e)) /\
                  ip_address e = req_ip req /\
                  user_agent e = match req_user_agent req with
                                 | Some "" => None
                                 | agent => agent
                                 end))) as Hsame.
  { intros d. split_and!; [done..|]. exists []. rewrite app_nil_r.
    split_and!; [done|simpl; lia|]. by intros e ?%elem_of_nil. }
  destruct (route_PUT_cases req w)
    as [resp warn _ _ Hput|u _ _ Hput|u _ _ _ Hput|u t v Hauth _ _ _ _ Hput];
    rewrite Hput; [apply Hsame..|].
  assert (db (updateUserNotificationPreference u t v (req_ip req)
                (header_user_agent (attach_user u req)) w).2 = db w \/ _) as Hstate
    by apply update_state.
  cbv zeta.
  destruct (updateUserNotificationPreference u t v (req_ip req)
              (header_user_agent (attach_user u req)) w) as [r w1].
  assert ((match (r, w1).1 with
           | Return updatedPreferences =>
               (send {| status := 200; json := Updated true updatedPreferences |}, (r, w1).2)
           | Throw err =>
               (send (expressErrorHandler (StorageError err) (r, w1).2), (r, w1).2)
           end).2 = w1) as -> by by destruct r.
  simpl in Hstate.
  destruct Hstate as [->|(_ & (c & Hc & _) & _ & at_ & ->)]; [apply Hsame|].
  unfold committed_change. rewrite Hc. simpl. split_and!; [done| |].
  - intros u' ty Hother. rewrite lookup_insert_ne; [done|].
    intros [= -> _]. by apply (Hother u).
  - eexists [_]. split_and!; [done|simpl; lia|].
    intros e ->%list_elem_of_singleton. simpl. split_and!; [by exists u|done|].
    by destruct (req_user_agent req) as [[|]|].
Qed.

(** A request of [alice], under another spelling of her id, commits a new
    row for her; the row of [bob] stays. *)
Lemma route_PUT_confined_to_user_witness :
  let req := example_http_request
               (Some "Bearer 3F2B8C1E-58CC-4372-A567-0E02B2C3D479")
               (JsObject [("type", JsString "payment_success");
                          ("optedOut", JsBoolean true)]) in
  http_status (route_PUT req shared_world).1 = 200%nat /\
  notification_preferences (db shared_world) !! (alice, "payment_success") = None /\
  notification_preferences (db (route_PUT req shared_world).2)
    !! (alice, "payment_success") = Some true /\
  notification_preferences (db (route_PUT req shared_world).2)
    !! (bob, "payment_success") = Some false.
Proof.
  intros req. split_and!; [by vm_compute..|].
  destruct (route_PUT_confined_to_user req shared_world) as (_ & Hother & _).
  rewrite Hother.
  - vm_compute. reflexivity.
  - intros tok Htok. vm_compute in Htok. injection Htok as <-.
    vm_compute. discriminate.
Defined.

Lemma getUserNotificationPreferences_run (userId : string) (w : World) :
  db (getUserNotificationPreferences userId w).2 = db w /\
  (((getUserNotificationPreferences userId w).1 = Return (view (db w) userId) /\
    is_Some (uuid_in userId)) \/
   ((getUserNotificationPreferences userId w).1 = Throw ConnectionFailure /\ ~ reliable w) \/
   ((getUserNotificationPreferences userId w).1 = Throw InvalidTextRepresentation /\
    uuid_in userId = None)).
Proof. apply (getUserNotificationPreferences_ensures userId w). Qed.

(** X10. The read route only reads: it leaves every table as it was and
    answers 200, 401 or 500, never 400 or 409. For a token that is the
    text of a UUID it answers 200 with one entry per known type for the
    user the token denotes whenever no round trip fails; for a token that
    is not, the [SELECT] is rejected and the answer is 500. *)
Theorem route_GET_reads_only (req : HttpRequest) (w : World) :
  let response := (route_GET req w).1 in
  let w' := (route_GET req w).2 in
  db w' = db w /\
  (http_status response = 200%nat \/ http_status response = 401%nat \/
   http_status response = 500%nat) /\
  (forall u, authMiddleware req = Authenticated u -> reliable w ->
     is_Some (uuid_in u) ->
     response =
       {| http_status := 200;
          data := JsObject [("preferences",
                             JsArray (json_of_preference <$> view (db w) u))] |}) /\
  (forall u, authMiddleware req = Authenticated u -> uuid_in u = None ->
     exists err, response = send (expressErrorHandler (StorageError err) w')).
Proof.
  intros response w'. subst response w'. unfold route_GET.
  destruct (authMiddleware req) as [resp warn|u] eqn:Hauth.
  - destruct (authMiddleware_unauthorized _ _ _ Hauth) as [Hst _]. simpl.
    split_and!; [done|auto|done..].
  - unfold getNotificationPreferencesHandler. simpl.
    destruct (getUserNotificationPreferences_run u w) as [Hdb Hr].
    destruct (getUserNotificationPreferences u w) as [r w1]. simpl in *.
    destruct Hr as [[-> [c Hc]]|[[-> Hunrel]|[-> Hnone]]]; simpl.
    + split_and!; [done|auto| |].
      * by intros ? [= <-] _ _.
      * intros ? [= <-] ?. congruence.
    + split_and!; [done|auto| |].
      * by intros ? _ ?.
      * intros ? _ _. by eexists.
    + split_and!; [done|auto| |].
      * intros ? [= <-] _ [c Hc]. congruence.
      * intros ? _ _. by eexists.
Qed.

Lemma route_GET_reads_only_witness :
  (route_GET (example_http_request (Some ("Bearer " +:+ alice)) JsNull) example_world).1
  = {| http_status := 200;
       data := JsObject [("preferences",
                          JsArray (json_of_preference <$> view (db example_world) alice))] |} /\
  http_status
    (route_GET (example_http_request (Some "Bearer user-123") JsNull) example_world).1
  = 500%nat.
Proof.
  split.
  - destruct (route_GET_reads_only
                (example_http_request (Some ("Bearer " +:+ alice)) JsNull) example_world)
      as (_ & _ & Hok & _).
    apply Hok.
    + vm_compute. reflexivity.
    + constructor.
    + vm_compute. by eexists.
  - destruct (route_GET_reads_only
                (example_http_request (Some "Bearer user-123") JsNull) example_world)
      as (_ & _ & _ & Hbad).
    destruct (Hbad "user-123") as [err ->]; [vm_compute; reflexivity..|].
    reflexivity.
Defined.

(** X11. What each status of the write route means for the tables. The route
    answers 200, 400, 401 or 500, and never 409: the error handling
    middleware that maps a unique violation to 409 is registered before
    the router and sees no error of a route. With 400 or 401 the world is
    the one before. With 200 the value asked for is in effect for the user
    of the token and the body carries that user's full view. Whenever the
    service throws, whatever the error, the answer is the 500 of Express
    with its error page. A 500 promises nothing either way. *)
Theorem route_PUT_statuses (req : HttpRequest) (w : World) :
  let response := (route_PUT req w).1 in
  let w' := (route_PUT req w).2 in
  http_status response ∈ [200; 400; 401; 500]%nat /\
  (http_status response = 400%nat \/ http_status response = 401%nat -> w' = w) /\
  (forall u t v e,
     authMiddleware req = Authenticated u ->
     js_get (req_body req) "type" = JsString (type_value t) ->
     js_get (req_body req) "optedOut" = JsBoolean v ->
     (updateUserNotificationPreference u t v (req_ip req)
        (header_user_agent (attach_user u req)) w).1 = Throw e ->
     response = send (expressErrorHandler (StorageError e) w')) /\
  (http_status response = 200%nat ->
   exists u t v,
     authMiddleware req = Authenticated u /\
     js_get (req_body req) "type" = JsString (type_value t) /\
     js_get (req_body req) "optedOut" = JsBoolean v /\
     effective (db w') u t = v /\
     data response = json_of_body (Updated true (view (db w') u))).
Proof.
  intros response w'. subst response w'.
  destruct (route_PUT_cases req w)
    as [resp warn Hauth Hst Hput|u Hauth Hbody Hput|u Hauth _ _ Hput
       |u t v Hauth _ _ Ht Hv Hput];
    rewrite Hput.
  - simpl. rewrite Hst. split_and!; [repeat constructor|done| |done].
    intros ? ? ? ? ?. congruence.
  - simpl. split_and!; [repeat constructor|done| |done].
    intros ? ? ? ? _ Hty. by destruct Hbody as [Hb|Hb]; rewrite Hb in Hty.
  - simpl. split_and!; [repeat constructor|done| |done].
    intros u' t' v' e Hauth' Ht' Hv' _. exfalso.
    assert (u' = u) as -> by congruence.
    pose proof (f_equal (fun p => http_status p.1) Hput) as Hst. simpl in Hst.
    revert Hst. unfold route_PUT.
    rewrite Hauth, (handler_calls_service (attach_user u req) t' v' w Ht' Hv'). simpl.
    by destruct (updateUserNotificationPreference u t' v' (req_ip req) _ w)
      as [[x|e'] w1].
  - cbv zeta.
    pose proof (update_returns u t v (req_ip req)
                  (header_user_agent (attach_user u req)) w) as Hret.
    assert (forall u' t' v', authMiddleware req = Authenticated u' ->
              js_get (req_body req) "type" = JsString (type_value t') ->
              js_get (req_body req) "optedOut" = JsBoolean v' ->
              u' = u /\ t' = t /\ v' = v) as Hsame.
    { intros u' t' v' Hauth' Ht' Hv'. split_and!; [congruence| |congruence].
      apply type_value_inj. congruence. }
    destruct (updateUserNotificationPreference u t v (req_ip req)
                (header_user_agent (attach_user u req)) w) as [[x|e] w1] eqn:Hcall;
      simpl in *.
    + destruct (Hret x eq_refl) as [-> Heff].
      split_and!; [repeat constructor|by intros [?|?]| |].
      * intros u' t' v' e Hauth' Ht' Hv'.
        destruct (Hsame u' t' v' Hauth' Ht' Hv') as (-> & -> & ->).
        by rewrite Hcall.
      * intros _. by exists u, t, v.
    + split_and!; [repeat constructor|by intros [?|?]| |done].
      intros u' t' v' e' Hauth' Ht' Hv'.
      destruct (Hsame u' t' v' Hauth' Ht' Hv') as (-> & -> & ->).
      rewrite Hcall. by intros [= <-].
Qed.

(** A request whose change collides on the audit identifier: nothing is
    committed, and the answer is 500, not 409. *)
Lemma route_PUT_statuses_witness :
  (exists u t v,
     authMiddleware (example_http_request (Some ("Bearer " +:+ alice))
                       (JsObject [("type", JsString "payment_refund");
                                  ("optedOut", JsBoolean true)]))
       = Authenticated u /\
     effective
       (db (route_PUT (example_http_request (Some ("Bearer " +:+ alice))
                         (JsObject [("type", JsString "payment_refund");
                                    ("optedOut", JsBoolean true)]))
              example_world).2) u t = v /\
     t = PaymentRefund) /\
  http_status
    (route_PUT (example_http_request (Some ("Bearer " +:+ alice))
                  (JsObject [("type", JsString "payment_failure");
                             ("optedOut", JsBoolean true)]))
       collision_world).1 = 500%nat.
Proof.
  split.
  - destruct (route_PUT_statuses
                (example_http_request (Some ("Bearer " +:+ alice))
                   (JsObject [("type", JsString "payment_refund");
                              ("optedOut", JsBoolean true)]))
                example_world) as (_ & _ & _ & H200).
    destruct H200 as (u & t & v & Hauth & Ht & _ & Heff & _).
    + vm_compute. reflexivity.
    + exists u, t, v. split_and!; [done..|].
      vm_compute in Ht. destruct t; by try discriminate.
  - destruct (route_PUT_statuses
                (example_http_request (Some ("Bearer " +:+ alice))
                   (JsObject [("type", JsString "payment_failure");
                              ("optedOut", JsBoolean true)]))
                collision_world) as (_ & _ & H500 & _).
    rewrite (H500 alice PaymentFailure true UniqueViolation); [reflexivity|..];
      vm_compute; reflexivity.
Defined.

(** X12. Read your writes, over HTTP: after a write request answered with 200,
    a read request with the same [Authorization] header, served from the
    state the write left with no round trip failing, is answered with 200
    and the same [preferences]. *)
Theorem read_after_write (req req' : HttpRequest) (w w2 : World) :
  http_status (route_PUT req w).1 = 200%nat ->
  req_authorization req' = req_authorization req ->
  db w2 = db (route_PUT req w).2 ->
  reliable w2 ->
  http_status (route_GET req' w2).1 = 200%nat /\
  js_get (data (route_GET req' w2).1) "preferences"
    = js_get (data (route_PUT req w).1) "preferences".
Proof.
  intros H200 Hsame Hdb Hrel.
  destruct (route_PUT_cases req w)
    as [resp warn _ Hst Hput|u _ _ Hput|u _ _ _ Hput|u t v Hauth _ _ _ _ Hput];
    rewrite Hput in H200, Hdb |- *.
  - simpl in H200. congruence.
  - done.
  - done.
  - cbv zeta in *.
    pose proof (update_returns u t v (req_ip req)
                  (header_user_agent (attach_user u req)) w) as Hret.
    pose proof (update_returns_uuid u t v (req_ip req)
                  (header_user_agent (attach_user u req)) w) as Huuid.
    destruct (updateUserNotificationPreference u t v (req_ip req)
                (header_user_agent (attach_user u req)) w) as [[x|e] w1]; simpl in *.
    + destruct (Hret x eq_refl) as [-> _]. destruct (Huuid _ eq_refl) as [c Hc].
      unfold route_GET. rewrite (authMiddleware_same_header req req' u Hsame Hauth).
      unfold getNotificationPreferencesHandler. simpl.
      destruct (getUserNotificationPreferences_run u w2)
        as [_ [[Hr _]|[[_ ?]|[_ ?]]]]; [|done|congruence].
      destruct (getUserNotificationPreferences u w2) as [r w3]. simpl in Hr. subst r.
      simpl. by rewrite Hdb.
    + done.
Qed.

Lemma read_after_write_witness :
  http_status
    (route_GET (example_http_request (Some ("Bearer " +:+ alice)) JsNull)
       (route_PUT (example_http_request (Some ("Bearer " +:+ alice))
                     (JsObject [("type", JsString "payment_refund");
                                ("optedOut", JsBoolean true)]))
          example_world).2).1 = 200%nat.
Proof.
  apply (read_after_write
           (example_http_request (Some ("Bearer " +:+ alice))
              (JsObject [("type", JsString "payment_refund");
                         ("optedOut", JsBoolean true)]))
           (example_http_request (Some ("Bearer " +:+ alice)) JsNull)
           example_world).
  - vm_compute. reflexivity.
  - reflexivity.
  - reflexivity.
  - vm_compute. constructor.
Defined.

(** * The settings page against the routes *)

Lemma interceptor_header (b : Frontend.Browser) (payload : JsValue) :
  req_authorization (Frontend.request b payload) =
    match Frontend.authToken b with
    | Some tok => if bool_decide (tok = "") then None else Some ("Bearer " +:+ tok)
    | None => None
    end.
Proof. reflexivity. Qed.

Lemma authMiddleware_no_header (req : HttpRequest) :
  req_authorization req = None ->
  authMiddleware req =
    Unauthorized
      {| status := 401;
         json := Message "Unauthorized: Missing or malformed Authorization header" |}
      (logUnauthorizedAttempt req None "Missing or malformed Authorization header").
Proof. intros Hh. unfold authMiddleware. by rewrite Hh. Qed.

Lemma client_authenticates (b : Frontend.Browser) (payload : JsValue)
    (tok : string) :
  Frontend.authToken b = Some tok -> trim tok <> "" ->
  authMiddleware (Frontend.request b payload) = Authenticated (trim tok).
Proof.
  intros Htok Hne.
  assert (tok <> "") as Hne' by (intros ->; by apply Hne).
  rewrite (authMiddleware_bearer (Frontend.request b payload) tok).
  - by rewrite bool_decide_eq_false_2.
  - rewrite interceptor_header, Htok. by rewrite bool_decide_eq_false_2.
Qed.

(** X13. The token the page stores is the identity the server sees: a request
    of the API client authenticates exactly when [localStorage] holds a
    token that is not only white space, and the user the server attaches
    is that token, trimmed. *)
Theorem client_token_is_server_identity (b : Frontend.Browser) (payload : JsValue)
    (u : string) :
  authMiddleware (Frontend.request b payload) = Authenticated u <->
  exists tok, Frontend.authToken b = Some tok /\ trim tok = u /\ u <> "".
Proof.
  split.
  - intros (rest & Hh & Htrim & Hne)%authMiddleware_inv.
    rewrite interceptor_header in Hh.
    destruct (Frontend.authToken b) as [tok|]; [|done].
    destruct (bool_decide (tok = "")); [done|].
    injection Hh as Hh. exists tok. split_and!; [done| |done].
    assert (tok = rest) as -> by exact Hh.
    done.
  - intros (tok & Htok & <- & Hne). by apply client_authenticates.
Qed.

Lemma client_token_is_server_identity_witness :
  authMiddleware
    (Frontend.request
       {| Frontend.authToken := Some alice; Frontend.address := None;
          Frontend.userAgent := None |} JsNull)
    = Authenticated alice.
Proof.
  apply (client_token_is_server_identity
           {| Frontend.authToken := Some alice; Frontend.address := None;
              Frontend.userAgent := None |} JsNull alice).
  exists alice. split; [reflexivity|]. split; [vm_compute; reflexivity|discriminate].
Defined.

Lemma update_payload_members (t : PaymentNotificationType) (v : bool) :
  js_get (update_payload t v) "type" = JsString (type_value t) /\
  js_get (update_payload t v) "optedOut" = JsBoolean v.
Proof. split; reflexivity. Qed.

(** The write route on a request that authenticates and has a valid body. *)
Lemma route_PUT_service (req : HttpRequest) (w : World) (u : string)
    (t : PaymentNotificationType) (v : bool) :
  authMiddleware req = Authenticated u ->
  js_get (req_body req) "type" = JsString (type_value t) ->
  js_get (req_body req) "optedOut" = JsBoolean v ->
  route_PUT req w =
    (let call := updateUserNotificationPreference u t v (req_ip req)
                   (header_user_agent (attach_user u req)) w in
     match call.1 with
     | Return updatedPreferences =>
         (send {| status := 200; json := Updated true updatedPreferences |}, call.2)
     | Throw err => (send (expressErrorHandler (StorageError err) call.2), call.2)
     end).
Proof.
  intros Hauth Ht Hv. unfold route_PUT. rewrite Hauth.
  rewrite (handler_calls_service (attach_user u req) t v w Ht Hv). simpl.
  by destruct (updateUserNotificationPreference _ _ _ _ _ w) as [[x|e] w1].
Qed.

(** How a write of the API client settles. *)
Lemma client_update_cases (b : Frontend.Browser) (t : PaymentNotificationType)
    (v : bool) (w : World) :
  ((forall u, authMiddleware (Frontend.request b (update_payload t v)) <> Authenticated u) /\
   exists response,
     Frontend.updateNotificationPreference b t v w = (Frontend.Rejected response, w) /\
     http_status response = 401%nat) \/
  (exists u,
     authMiddleware (Frontend.request b (update_payload t v)) = Authenticated u /\
     let call := updateUserNotificationPreference u t v (Frontend.address b)
                   (header_user_agent
                      (attach_user u (Frontend.request b (update_payload t v)))) w in
     match call.1 with
     | Return x =>
         Frontend.updateNotificationPreference b t v w
           = (Frontend.Fulfilled (JsArray (json_of_preference <$> x)), call.2)
     | Throw e =>
         Frontend.updateNotificationPreference b t v w
           = (Frontend.Rejected (send (expressErrorHandler (StorageError e) call.2)),
              call.2) /\
         http_status (send (expressErrorHandler (StorageError e) call.2)) = 500%nat
     end).
Proof.
  unfold Frontend.updateNotificationPreference. fold (update_payload t v).
  destruct (authMiddleware (Frontend.request b (update_payload t v)))
    as [resp warn|u] eqn:Hauth.
  - left. split; [done|]. exists (send resp).
    destruct (authMiddleware_unauthorized _ _ _ Hauth) as [Hst _].
    unfold route_PUT. rewrite Hauth. unfold Frontend.settle. simpl. by rewrite Hst.
  - right. exists u. split; [done|].
    destruct (update_payload_members t v) as [Ht Hv].
    rewrite (route_PUT_service _ w u t v Hauth Ht Hv). cbv zeta.
    change (req_ip (Frontend.request b (update_payload t v))) with (Frontend.address b).
    destruct (updateUserNotificationPreference u t v (Frontend.address b) _ w)
      as [[x|e] w1]; simpl.
    + reflexivity.
    + done.
Qed.

(** X14. The API client never sends a malformed write: whatever token, type and
    value, the route does not answer 400. When the call resolves, the list
    it returns is the server's full view of the user of the token, and the
    value asked for is in effect. *)
Theorem client_update_is_well_formed (b : Frontend.Browser)
    (t : PaymentNotificationType) (v : bool) (w : World) :
  http_status (route_PUT (Frontend.request b (update_payload t v)) w).1 <> 400%nat /\
  (forall value,
     (Frontend.updateNotificationPreference b t v w).1 = Frontend.Fulfilled value ->
     exists u,
       authMiddleware (Frontend.request b (update_payload t v)) = Authenticated u /\
       let w' := (Frontend.updateNotificationPreference b t v w).2 in
       value = JsArray (json_of_preference <$> view (db w') u) /\
       effective (db w') u t = v).
Proof.
  split.
  - destruct (authMiddleware (Frontend.request b (update_payload t v)))
      as [resp warn|u] eqn:Hauth.
    + destruct (authMiddleware_unauthorized _ _ _ Hauth) as [Hst _].
      unfold route_PUT. rewrite Hauth. simpl. by rewrite Hst.
    + destruct (update_payload_members t v) as [Ht Hv].
      rewrite (route_PUT_service _ w u t v Hauth Ht Hv). cbv zeta.
      by destruct (updateUserNotificationPreference u t v _ _ w) as [[x|e] w1].
  - intros value Hval.
    destruct (client_update_cases b t v w) as [[_ (resp & Hrej & _)]|(u & Hauth & Hcall)].
    + rewrite Hrej in Hval. done.
    + exists u. split; [done|]. cbv zeta in *.
      pose proof (update_returns u t v (Frontend.address b)
                    (header_user_agent
                       (attach_user u (Frontend.request b (update_payload t v)))) w)
        as Hret.
      destruct (updateUserNotificationPreference u t v (Frontend.address b) _ w)
        as [[x|e] w1]; simpl in *.
      * rewrite Hcall in Hval |- *. simpl in *. injection Hval as <-.
        destruct (Hret x eq_refl) as [-> ?]. done.
      * destruct Hcall as [Hcall _]. rewrite Hcall in Hval. done.
Qed.

Lemma client_update_is_well_formed_witness :
  exists u,
    authMiddleware
      (Frontend.request
         {| Frontend.authToken := Some alice; Frontend.address := None;
            Frontend.userAgent := None |} (update_payload PaymentSuccess true))
      = Authenticated u.
Proof.
  destruct (client_update_is_well_formed
              {| Frontend.authToken := Some alice; Frontend.address := None;
                 Frontend.userAgent := None |} PaymentSuccess true example_world)
    as [_ Hok].
  destruct (Hok (JsArray (json_of_preference <$>
                   [ {| type := PaymentSuccess; optedOut := true |};
                     {| type := PaymentFailure; optedOut := false |};
                     {| type := PaymentRefund; optedOut := false |} ])))
    as (u & Hauth & _).
  - vm_compute. reflexivity.
  - by exists u.
Defined.

(** ** Rendering *)

Lemma find_type_json (l : list NotificationPreference) (t : PaymentNotificationType) :
  Frontend.find_type (json_of_preference <$> l) (type_value t)
  = Some (json_of_preference <$> first_of t l).
Proof.
  induction l as [|p l IH]; [done|].
  rewrite fmap_cons. unfold first_of in *. simpl.
  destruct (decide (type p = t)) as [<-|Hne].
  - by rewrite !bool_decide_eq_true_2.
  - rewrite !bool_decide_eq_false_2; [done..|].
    by intros ?%type_value_inj.
Qed.

Lemma toggle_json (st : Frontend.PageState) (l : list NotificationPreference)
    (t : PaymentNotificationType) :
  Frontend.toggle st (json_of_preference <$> l) t
  = Some (toggle_showing st t
            match first_of t l with
            | Some p => optedOut p
            | None => false
            end).
Proof.
  unfold Frontend.toggle. rewrite find_type_json.
  by destruct (first_of t l).
Qed.

Lemma toggles_json (st : Frontend.PageState) (l : list NotificationPreference) :
  Frontend.preferences st = JsArray (json_of_preference <$> l) ->
  Frontend.toggles st
  = Some ((fun t => toggle_showing st t
                      match first_of t l with
                      | Some p => optedOut p
                      | None => false
                      end) <$> allTypes).
Proof.
  intros Hp. unfold Frontend.toggles. rewrite Hp.
  unfold allTypes. cbn [mapM]. by rewrite !toggle_json.
Qed.

Lemma first_of_view (d : Database) (u : string) (t : PaymentNotificationType) :
  first_of t (view d u) = Some {| type := t; optedOut := effective d u t |}.
Proof. by destruct t. Qed.

Lemma toggles_view (st : Frontend.PageState) (d : Database) (u : string) :
  Frontend.preferences st = JsArray (json_of_preference <$> view d u) ->
  Frontend.toggles st
  = Some ((fun t => toggle_showing st t (effective d u t)) <$> allTypes).
Proof.
  intros Hp. rewrite (toggles_json st _ Hp).
  unfold allTypes. cbn [fmap list_fmap]. by rewrite !first_of_view.
Qed.

(** X15. Rendering the list the server sent never throws and shows one toggle
    per known type, in the order of the enum: each is checked as the first
    entry of its type says, unchecked when the list has no such entry. For
    the server's view of a user the toggles show exactly the effective
    values. *)
Theorem toggles_show_preferences (st : Frontend.PageState)
    (l : list NotificationPreference) :
  Frontend.preferences st = JsArray (json_of_preference <$> l) ->
  Frontend.toggles st
  = Some ((fun t => toggle_showing st t
                      match first_of t l with
                      | Some p => optedOut p
                      | None => false
                      end) <$> allTypes) /\
  (forall d u, l = view d u ->
     Frontend.toggles st
     = Some ((fun t => toggle_showing st t (effective d u t)) <$> allTypes)).
Proof.
  intros Hp. split; [by apply toggles_json|].
  intros d u ->. by apply toggles_view.
Qed.

Lemma toggles_show_preferences_witness :
  (fun tg => (Frontend.id tg, Frontend.checked tg, Frontend.disabled tg))
    <$> default [] (Frontend.toggles example_page)
  = [ ("toggle-payment_success", JsBoolean false, false);
      ("toggle-payment_failure", JsBoolean false, false);
      ("toggle-payment_refund", JsBoolean true, true) ].
Proof.
  rewrite (proj1 (toggles_show_preferences example_page
                    [ {| type := PaymentRefund; optedOut := true |} ] eq_refl)).
  vm_compute. reflexivity.
Defined.

(** ** Toggling *)

Lemma renderable_renders (authenticated : bool) (st : Frontend.PageState) :
  renderable st -> is_Some (Frontend.render authenticated st).
Proof.
  intros Hst. unfold Frontend.render.
  destruct authenticated; simpl; [|done].
  destruct Hst as [Hnull|[l Hl]].
  - rewrite Hnull. simpl. by rewrite orb_true_r.
  - rewrite (toggles_json st l Hl), Hl. simpl.
    by destruct (Frontend.loading st).
Qed.

Lemma client_fetch_cases (b : Frontend.Browser) (w : World) :
  db (Frontend.fetchNotificationPreferences b w).2 = db w /\
  ((exists response,
      (Frontend.fetchNotificationPreferences b w).1 = Frontend.Rejected response) \/
   (exists u,
      authMiddleware (Frontend.request b (JsObject [])) = Authenticated u /\
      (Frontend.fetchNotificationPreferences b w).1
        = Frontend.Fulfilled (JsArray (json_of_preference <$> view (db w) u)))).
Proof.
  unfold Frontend.fetchNotificationPreferences, route_GET.
  destruct (authMiddleware (Frontend.request b (JsObject []))) as [resp warn|u] eqn:Hauth.
  - destruct (authMiddleware_unauthorized _ _ _ Hauth) as [Hst _].
    unfold Frontend.settle. simpl. rewrite Hst. simpl. split; [done|]. left. eauto.
  - unfold getNotificationPreferencesHandler. simpl.
    destruct (getUserNotificationPreferences_run u w) as [Hdb Hr].
    destruct (getUserNotificationPreferences u w) as [r w1]. simpl in *.
    destruct Hr as [[-> _]|[[-> _]|[-> _]]]; unfold Frontend.settle; simpl.
    + split; [done|]. right. exists u. done.
    + split; [done|]. left. eauto.
    + split; [done|]. left. eauto.
Qed.

(** X16. The page never crashes on what the server sends: the state after the
    mount renders, a state that renders still renders after any toggle,
    whatever the server answered, and rendering such a state does not
    throw, logged in or not. *)
Theorem page_always_renders (b : Frontend.Browser) (w : World) :
  renderable (Frontend.mount b w).1 /\
  (forall t v st, renderable st -> renderable (Frontend.handleToggle b t v st w).1) /\
  (forall authenticated st, renderable st ->
     is_Some (Frontend.render authenticated st)).
Proof.
  split_and!.
  - unfold Frontend.mount.
    destruct (client_fetch_cases b w) as [_ [[resp Hr]|(u & _ & Hr)]];
      destruct (Frontend.fetchNotificationPreferences b w) as [o w1];
      simpl in Hr; subst o; simpl.
    + by left.
    + right. by exists (view (db w) u).
  - intros t v st Hst. unfold Frontend.handleToggle.
    destruct (client_update_cases b t v w) as [[_ (resp & Hrej & _)]|(u & _ & Hcall)].
    + rewrite Hrej. exact Hst.
    + cbv zeta in Hcall.
      destruct (updateUserNotificationPreference u t v _ _ w) as [[x|e] w1];
        simpl in Hcall.
      * rewrite Hcall. right. by exists x.
      * destruct Hcall as [-> _]. exact Hst.
  - intros authenticated st. apply renderable_renders.
Qed.

Lemma page_always_renders_witness :
  is_Some (Frontend.render true example_page).
Proof.
  apply (page_always_renders
           {| Frontend.authToken := None; Frontend.address := None;
              Frontend.userAgent := None |} example_world).
  right. by exists [ {| type := PaymentRefund; optedOut := true |} ].
Defined.

(** X17. [handleToggle] keeps its books whatever the server answers: afterwards
    the type is no longer marked as saving, the marks of the other types
    and the loading flag are as before, and exactly one of two things
    happened. Either the success message is shown, no error, and the page
    holds the server's view of the user, with the value asked for in
    effect; or the error message is shown, no success message, and the
    preferences on the page are the ones it had. *)
Theorem handleToggle_bookkeeping (b : Frontend.Browser)
    (t : PaymentNotificationType) (v : bool) (st : Frontend.PageState) (w : World) :
  let st' := (Frontend.handleToggle b t v st w).1 in
  let w' := (Frontend.handleToggle b t v st w).2 in
  Frontend.saving st' !! type_value t = Some false /\
  (forall k, k <> type_value t -> Frontend.saving st' !! k = Frontend.saving st !! k) /\
  Frontend.loading st' = Frontend.loading st /\
  ((Frontend.successMsg st' = Some "Preferences updated successfully." /\
    Frontend.error st' = None /\
    exists u, Frontend.preferences st' = JsArray (json_of_preference <$> view (db w') u) /\
              effective (db w') u t = v)
   \/
   (Frontend.error st'
      = Some "Could not update preference. Please check your connection and try again." /\
    Frontend.successMsg st' = None /\
    Frontend.preferences st' = Frontend.preferences st)).
Proof.
  intros st' w'. subst st' w'. unfold Frontend.handleToggle.
  assert (forall resp w1,
            let st' := Frontend.toggleSettled t (Frontend.Rejected resp)
                         (Frontend.toggleStarted t st) in
            Frontend.saving st' !! type_value t = Some false /\
            (forall k, k <> type_value t ->
               Frontend.saving st' !! k = Frontend.saving st !! k) /\
            Frontend.loading st' = Frontend.loading st /\
            ((Frontend.successMsg st' = Some "Preferences updated successfully." /\
              Frontend.error st' = None /\
              exists u, Frontend.preferences st'
                        = JsArray (json_of_preference <$> view (db w1) u) /\
                        effective (db w1) u t = v)
             \/
             (Frontend.error st'
                = Some "Could not update preference. Please check your connection and try again." /\
              Frontend.successMsg st' = None /\
              Frontend.preferences st' = Frontend.preferences st))) as Hrejected.
  { intros resp w1. simpl. split_and!; [by rewrite lookup_insert_eq| |done|by right].
    intros k Hk. by rewrite !lookup_insert_ne. }
  destruct (client_update_cases b t v w) as [[_ (resp & Hrej & _)]|(u & _ & Hcall)].
  - rewrite Hrej. apply Hrejected.
  - cbv zeta in Hcall.
    pose proof (update_returns u t v (Frontend.address b)
                  (header_user_agent
                     (attach_user u (Frontend.request b (update_payload t v)))) w)
      as Hret.
    destruct (updateUserNotificationPreference u t v _ _ w) as [[x|e] w1];
      simpl in Hcall, Hret.
    + rewrite Hcall. destruct (Hret x eq_refl) as [-> Heff]. simpl.
      split_and!; [by rewrite lookup_insert_eq| |done|].
      * intros k Hk. by rewrite !lookup_insert_ne.
      * left. split_and!; [done..|]. by exists u.
    + destruct Hcall as [-> _]. apply Hrejected.
Qed.

Lemma handleToggle_bookkeeping_witness :
  Frontend.saving
    (Frontend.handleToggle
       {| Frontend.authToken := Some alice; Frontend.address := None;
          Frontend.userAgent := None |}
       PaymentSuccess true example_page example_world).1
    !! "payment_refund" = Some true.
Proof.
  rewrite (proj1 (proj2 (handleToggle_bookkeeping
                           {| Frontend.authToken := Some alice; Frontend.address := None;
                              Frontend.userAgent := None |}
                           PaymentSuccess true example_page example_world))).
  - vm_compute. reflexivity.
  - vm_compute. discriminate.
Defined.

(** X18. From the switch to the table and back: with a token in the browser
    that is, trimmed, the text of a UUID, storage that does not fail, and
    a write the database accepts, toggling a type puts the value in effect
    for the user of the token, leaves the user's other types as they were,
    and the page shows the success message and, for every type, a toggle
    checked as the table now says. *)
Theorem toggle_reaches_the_table (b : Frontend.Browser) (tok : string)
    (t : PaymentNotificationType) (v : bool) (st : Frontend.PageState) (w : World) :
  Frontend.authToken b = Some tok ->
  trim tok <> "" ->
  is_Some (uuid_in (trim tok)) ->
  reliable w ->
  effective (db w) (trim tok) t = v \/
    (insertable (trim tok) t (db w) /\ fresh_id w) ->
  let st' := (Frontend.handleToggle b t v st w).1 in
  let w' := (Frontend.handleToggle b t v st w).2 in
  effective (db w') (trim tok) t = v /\
  (forall t', t' <> t -> effective (db w') (trim tok) t' = effective (db w) (trim tok) t') /\
  Frontend.successMsg st' = Some "Preferences updated successfully." /\
  Frontend.error st' = None /\
  Frontend.toggles st'
    = Some ((fun t' => toggle_showing st' t' (effective (db w') (trim tok) t'))
              <$> allTypes).
Proof.
  intros Htok Hne [c Hc] Hrel Hcan st' w'. subst st' w'. unfold Frontend.handleToggle.
  pose proof (client_authenticates b (update_payload t v) tok Htok Hne) as Hauth.
  destruct (client_update_cases b t v w) as [[Hno _]|(u & Hauth' & Hcall)];
    [by destruct (Hno (trim tok))|].
  assert (u = trim tok) as -> by congruence.
  cbv zeta in Hcall.
  set (ua := header_user_agent
               (attach_user (trim tok) (Frontend.request b (update_payload t v)))) in *.
  pose proof (update_returns (trim tok) t v (Frontend.address b) ua w) as Hret.
  pose proof (update_throws (trim tok) t v (Frontend.address b) ua w) as Hthrow.
  pose proof (update_state (trim tok) t v (Frontend.address b) ua w) as Hstate.
  destruct (updateUserNotificationPreference (trim tok) t v (Frontend.address b) ua w)
    as [[x|e] w1]; simpl in Hcall, Hret, Hthrow, Hstate.
  - rewrite Hcall. destruct (Hret x eq_refl) as [-> Heff]. simpl.
    split_and!; [done| |done..|].
    + intros t' Ht'.
      destruct Hstate as [->|(_ & _ & _ & at_ & ->)]; [done|].
      rewrite !(effective_uuid _ _ _ _ Hc). unfold committed_change. rewrite Hc. simpl.
      rewrite lookup_insert_ne; [done|]. by intros [= ?%type_value_inj].
    + by apply toggles_view.
  - exfalso.
    destruct (Hthrow e eq_refl)
      as [[_ ?]|[(_ & Hd & Hnot & _)|[(_ & Hd & _ & Hnot)|[_ ?]]]];
      [done| | |congruence]; destruct Hcan as [?|[? ?]]; done.
Qed.

Lemma toggle_reaches_the_table_witness :
  effective
    (db (Frontend.handleToggle
           {| Frontend.authToken := Some alice; Frontend.address := None;
              Frontend.userAgent := None |}
           PaymentFailure true example_page example_world).2)
    alice PaymentFailure = true.
Proof.
  apply (toggle_reaches_the_table
           {| Frontend.authToken := Some alice; Frontend.address := None;
              Frontend.userAgent := None |}
           alice PaymentFailure true example_page example_world).
  - reflexivity.
  - vm_compute. discriminate.
  - vm_compute. by eexists.
  - constructor.
  - right. split; [exists alice; split; [by vm_compute|right; vm_compute; eauto]|].
    unfold fresh_id. vm_compute. by intros ?%elem_of_nil.
Defined.

(** X19. Opening the page with a token that is, trimmed, the text of a
    UUID, against storage that does not fail: the mount changes no table,
    the loading line goes away, no error is shown, and the page renders one
    toggle per type, each checked as the table says for the user of the
    token. *)
Theorem mount_shows_stored_preferences (b : Frontend.Browser) (tok : string)
    (w : World) :
  Frontend.authToken b = Some tok ->
  trim tok <> "" ->
  is_Some (uuid_in (trim tok)) ->
  reliable w ->
  let st := (Frontend.mount b w).1 in
  db (Frontend.mount b w).2 = db w /\
  Frontend.isAuthenticated b = true /\
  Frontend.render (Frontend.isAuthenticated b) st
    = Some (Frontend.Settings false None None
              (Some ((fun t => toggle_showing st t (effective (db w) (trim tok) t))
                       <$> allTypes))).
Proof.
  intros Htok Hne [c Hc] Hrel st. subst st.
  assert (Frontend.isAuthenticated b = true) as Hin.
  { unfold Frontend.isAuthenticated, Frontend.userId. rewrite Htok.
    rewrite bool_decide_eq_false_2; [done|]. intros ->. by apply Hne. }
  pose proof (client_authenticates b (JsObject []) tok Htok Hne) as Hauth.
  unfold Frontend.mount, Frontend.fetchNotificationPreferences, route_GET.
  rewrite Hauth, Hin. unfold getNotificationPreferencesHandler. simpl.
  destruct (getUserNotificationPreferences_run (trim tok) w)
    as [Hdb [[Hr _]|[[_ ?]|[_ ?]]]]; [|done|congruence].
  destruct (getUserNotificationPreferences (trim tok) w) as [r w1].
  simpl in Hdb, Hr. subst r.
  change (Frontend.settle _)
    with (Frontend.Fulfilled (JsArray (json_of_preference <$> view (db w) (trim tok))), w1).
  cbv iota beta.
  set (st := Frontend.fetched _ Frontend.initialState).
  split_and!; [done..|].
  change ((st, w1).1) with st. unfold Frontend.render.
  rewrite (toggles_view st (db w) (trim tok) eq_refl). reflexivity.
Qed.

Lemma mount_shows_stored_preferences_witness :
  Frontend.isAuthenticated
    {| Frontend.authToken := Some alice; Frontend.address := None;
       Frontend.userAgent := None |} = true.
Proof.
  apply (mount_shows_stored_preferences
           {| Frontend.authToken := Some alice; Frontend.address := None;
              Frontend.userAgent := None |} alice example_world).
  - reflexivity.
  - vm_compute. discriminate.
  - vm_compute. by eexists.
  - constructor.
Defined.

(** The token of the demonstration user of [AuthProvider] is not the text
    of a UUID: the server answers 500 and the page shows the load error. *)
Example mount_with_malformed_token :
  let b := {| Frontend.authToken := Some "user-123"; Frontend.address := None;
              Frontend.userAgent := None |} in
  http_status (route_GET (Frontend.request b (JsObject [])) example_world).1 = 500%nat /\
  Frontend.error (Frontend.mount b example_world).1
    = Some "Failed to load notification preferences. Please try again later." /\
  Frontend.preferences (Frontend.mount b example_world).1 = JsNull.
Proof. vm_compute. split_and!; reflexivity. Qed.

(** X20. Opening the page without a token: the page still sends the request,
    with no [Authorization] header; the server answers 401 without a round
    trip to the storage, the page records the load error, and what it
    renders is the login notice. *)
Theorem mount_without_token (b : Frontend.Browser) (w : World) :
  Frontend.authToken b = None \/ Frontend.authToken b = Some "" ->
  http_status (route_GET (Frontend.request b (JsObject [])) w).1 = 401%nat /\
  Frontend.mount b w
    = ({| Frontend.preferences := JsNull; Frontend.loading := false;
          Frontend.saving := ∅;
          Frontend.error :=
            Some "Failed to load notification preferences. Please try again later.";
          Frontend.successMsg := None |}, w) /\
  Frontend.render (Frontend.isAuthenticated b) (Frontend.mount b w).1
    = Some Frontend.LoginNotice.
Proof.
  intros Hnone.
  assert (req_authorization (Frontend.request b (JsObject [])) = None) as Hh.
  { rewrite interceptor_header. by destruct Hnone as [->| ->]. }
  assert (Frontend.isAuthenticated b = false) as Hout.
  { unfold Frontend.isAuthenticated, Frontend.userId. by destruct Hnone as [->| ->]. }
  unfold Frontend.mount, Frontend.fetchNotificationPreferences, route_GET.
  rewrite (authMiddleware_no_header _ Hh), Hout. done.
Qed.

Lemma mount_without_token_witness :
  Frontend.mount
    {| Frontend.authToken := Some ""; Frontend.address := None;
       Frontend.userAgent := None |} example_world
  = ({| Frontend.preferences := JsNull; Frontend.loading := false;
        Frontend.saving := ∅;
        Frontend.error :=
          Some "Failed to load notification preferences. Please try again later.";
        Frontend.successMsg := None |}, example_world).
Proof.
  apply (mount_without_token
           {| Frontend.authToken := Some ""; Frontend.address := None;
              Frontend.userAgent := None |} example_world).
  by right.
Defined.
